(** * Yana, backend/life_saver/nlp/nlp.js: the text-analysis facade

    A shallow embedding of [analyzeText] and [analyzeTextWrapper] and the
    properties of the facade that the specification states about them.

    The module forwards a text to the Google Cloud language client, reshapes
    up to four responses and, in the wrapper, replaces any failure by fixed
    placeholder data.  The language client is outside the repository: it is
    modelled as a collaborator that owns a state of its own and answers each
    request by resolving or rejecting.  Values exchanged with it are
    JavaScript data (the JSON fragment plus [undefined]); numbers are only
    ever copied by the module, never computed with, and are carried as
    rationals. *)

From Stdlib Require Import List String Ascii Bool QArith Lia.
Import ListNotations.
Local Close Scope Q_scope.
Local Open Scope string_scope.
Local Open Scope list_scope.
#[local] Set Warnings "-register-all".

(** ** JavaScript values *)

Module JS.

(** An object is the list of its own properties in insertion order; keys are
    pairwise distinct, as in every JavaScript object. *)
Inductive value : Type :=
| undefined
| null
| JBool (b : bool)
| JNum (q : Q)
| JStr (s : string)
| JArr (items : list value)
| JObj (fields : list (string * value)).

(** What a [throw] carries: the runtime's own TypeError, or the reason a
    promise was rejected with (or a callee threw). *)
Inductive exn : Type :=
| TypeError
| Reason (v : value).

Inductive Result (A : Type) : Type :=
| Ok (a : A)
| Throw (e : exn).
Arguments Ok {A} a.
Arguments Throw {A} e.

Definition rbind {A B} (r : Result A) (k : A -> Result B) : Result B :=
  match r with
  | Ok a => k a
  | Throw e => Throw e
  end.

Fixpoint lookup (p : string) (fields : list (string * value)) : value :=
  match fields with
  | [] => undefined
  | (k, v) :: rest => if String.eqb k p then v else lookup p rest
  end.

(** [o.p] for the property names read here (documentSentiment, magnitude,
    score, sentences, text, content, sentiment, entities, tokens,
    partOfSpeech, tag, categories, name, confidence, type, salience): none of
    them is defined on the prototype of a primitive, an array or a plain
    object, so only own properties of objects answer; reading a property of
    [undefined] or [null] is a TypeError. *)
Definition get (o : value) (p : string) : Result value :=
  match o with
  | undefined | null => Throw TypeError
  | JObj fields => Ok (lookup p fields)
  | JBool _ | JNum _ | JStr _ | JArr _ => Ok undefined
  end.

(** The iteration protocol used by [for ... of] and by array destructuring:
    arrays yield their elements, strings their characters, nothing else among
    these values is iterable. *)
Definition iterate (v : value) : Result (list value) :=
  match v with
  | JArr items => Ok items
  | JStr s => Ok (map (fun ch => JStr (String ch EmptyString)) (list_ascii_of_string s))
  | undefined | null | JBool _ | JNum _ | JObj _ => Throw TypeError
  end.

(** [let [x] = v]. *)
Definition destructure_first (v : value) : Result value :=
  rbind (iterate v) (fun items => Ok (hd undefined items)).

(** [v[i]] for an array index [i]. *)
Definition index (v : value) (i : nat) : Result value :=
  match v with
  | undefined | null => Throw TypeError
  | JArr items => Ok (nth i items undefined)
  | JStr s => Ok (match String.get i s with
                  | Some ch => JStr (String ch EmptyString)
                  | None => undefined
                  end)
  | JBool _ | JNum _ | JObj _ => Ok undefined
  end.

(** [for (const x of items) { acc.push(body x) }], leaving at the first
    throw. *)
Fixpoint for_of_push (items : list value) (body : value -> Result value)
    (acc : list value) : Result (list value) :=
  match items with
  | [] => Ok acc
  | x :: rest =>
      match body x with
      | Ok r => for_of_push rest body (acc ++ [r])
      | Throw e => Throw e
      end
  end.

Definition keys (v : value) : list string :=
  match v with
  | JObj fields => map fst fields
  | _ => []
  end.

End JS.
Import JS.

Declare Scope js_scope.
Delimit Scope js_scope with js.
Notation "x <~ r ;; k" := (rbind r (fun x => k))
  (at level 61, r at next level, right associativity) : js_scope.

(** ** The remote collaborator *)

(** The four methods of the language client that the module calls. *)
Inductive Method : Type :=
| analyzeSentiment
| analyzeEntities
| analyzeSyntax
| classifyText.

Definition Method_eqb (a b : Method) : bool :=
  match a, b with
  | analyzeSentiment, analyzeSentiment
  | analyzeEntities, analyzeEntities
  | analyzeSyntax, analyzeSyntax
  | classifyText, classifyText => true
  | _, _ => false
  end.

(** How the promise returned by a method settles. *)
Inductive Response : Type :=
| Resolved (v : value)
| Rejected (reason : value).

(** One issued request: the method, its argument and how it settled. *)
Definition Event : Type := (Method * value * Response)%type.

(** The collaborator over its own state [W].  [connect] stands for
    [require("@google-cloud/language")] followed by
    [new language.LanguageServiceClient(key)], either of which may throw;
    [serve] answers one method call. *)
Record LanguageService (W : Type) : Type := {
  connect : value -> W -> Result unit * W;
  serve : Method -> value -> W -> Response * W
}.
Arguments connect {W} _ _ _.
Arguments serve {W} _ _ _ _.

(** ** Computations of the module: collaborator state, exceptions and the
    requests issued *)

Record Run (W A : Type) : Type := mkRun {
  outcome : Result A;
  after : W;
  issued : list Event
}.
Arguments mkRun {W A} _ _ _.
Arguments outcome {W A} _.
Arguments after {W A} _.
Arguments issued {W A} _.

Definition M (W A : Type) : Type := W -> Run W A.

Definition ret {W A} (a : A) : M W A := fun w => mkRun (Ok a) w [].

Definition bind {W A B} (m : M W A) (k : A -> M W B) : M W B :=
  fun w =>
    match m w with
    | mkRun (Ok a) w1 log1 =>
        match k a w1 with
        | mkRun r w2 log2 => mkRun r w2 (log1 ++ log2)
        end
    | mkRun (Throw e) w1 log1 => mkRun (Throw e) w1 log1
    end.

Definition lift {W A} (r : Result A) : M W A := fun w => mkRun r w [].

(** [try { body } catch (err) { handler err }]. *)
Definition try_catch {W A} (body : M W A) (handler : exn -> M W A) : M W A :=
  fun w =>
    match body w with
    | mkRun (Ok a) w1 log1 => mkRun (Ok a) w1 log1
    | mkRun (Throw e) w1 log1 =>
        match handler e w1 with
        | mkRun r w2 log2 => mkRun r w2 (log1 ++ log2)
        end
    end.

Declare Scope m_scope.
Delimit Scope m_scope with m.
Notation "x <- m ;; k" := (bind m (fun x => k))
  (at level 61, m at next level, right associativity) : m_scope.

Section Facade.

Context {W : Type}.
Variable client : LanguageService W.

(** [new language.LanguageServiceClient(key)]. *)
Definition new_LanguageServiceClient (key : value) : M W unit :=
  fun w => let (r, w') := connect client key w in mkRun r w' [].

(** [await client.method(request)]: a rejection is thrown at the [await]. *)
Definition await (method : Method) (request : value) : M W value :=
  fun w =>
    let (r, w') := serve client method request w in
    mkRun (match r with
           | Resolved v => Ok v
           | Rejected reason => Throw (Reason reason)
           end) w' [(method, request, r)].

Definition key : value :=
  JObj [("keyFilename", JStr "../gcloud-language-key/RU-Hacks-2020-key.json")].

Definition make_document (text : string) : value :=
  JObj [("content", JStr text); ("type", JStr "PLAIN_TEXT")].

(** The argument [{ document }] of every method call. *)
Definition make_request (text : string) : value :=
  JObj [("document", make_document text)].

(** nlp.js, lines 54-119.  The flags are the arguments after their default
    ([true]) has been applied.  A method that throws before it returns a
    promise ends the function like a rejection does and is covered by
    [Rejected]. *)
Definition analyzeText (text : string)
    (analyze_sentiment analyze_entities analyze_syntax classify_content : bool)
    : M W value :=
  (_ <- new_LanguageServiceClient key ;;
   let document := make_document text in
   sentiment_result <-
     (if analyze_sentiment then
        response <- await analyzeSentiment (JObj [("document", document)]) ;;
        lift (sentiment_result_raw <~ destructure_first response ;;
              documentSentiment <~ get sentiment_result_raw "documentSentiment" ;;
              magnitude <~ get documentSentiment "magnitude" ;;
              documentSentiment' <~ get sentiment_result_raw "documentSentiment" ;;
              score <~ get documentSentiment' "score" ;;
              sentences <~ get sentiment_result_raw "sentences" ;;
              items <~ iterate sentences ;;
              pushed <~ for_of_push items
                (fun sentence =>
                   text_ <~ get sentence "text" ;;
                   content <~ get text_ "content" ;;
                   sentiment <~ get sentence "sentiment" ;;
                   magnitude_ <~ get sentiment "magnitude" ;;
                   sentiment' <~ get sentence "sentiment" ;;
                   score_ <~ get sentiment' "score" ;;
                   Ok (JObj [("text", content);
                             ("magnitude", magnitude_);
                             ("score", score_)]))
                [JObj [("magnitude", magnitude); ("score", score)]] ;;
              Ok (JArr pushed))%js
      else ret null) ;;
   entity_result <-
     (if analyze_entities then
        response <- await analyzeEntities (JObj [("document", document)]) ;;
        lift (entity_result_raw <~ destructure_first response ;;
              get entity_result_raw "entities")%js
      else ret null) ;;
   syntax_result <-
     (if analyze_syntax then
        response <- await analyzeSyntax (JObj [("document", document)]) ;;
        lift (syntax_result_raw <~ destructure_first response ;;
              tokens <~ get syntax_result_raw "tokens" ;;
              items <~ iterate tokens ;;
              pushed <~ for_of_push items
                (fun token =>
                   partOfSpeech <~ get token "partOfSpeech" ;;
                   tag <~ get partOfSpeech "tag" ;;
                   text_ <~ get token "text" ;;
                   content <~ get text_ "content" ;;
                   Ok (JObj [("partOfSpeech", tag); ("word", content)]))
                [] ;;
              Ok (JArr pushed))%js
      else ret null) ;;
   classify_result <-
     (if classify_content then
        response <- await classifyText (JObj [("document", document)]) ;;
        lift (classify_result_raw <~ destructure_first response ;;
              categories <~ get classify_result_raw "categories" ;;
              items <~ iterate categories ;;
              pushed <~ for_of_push items
                (fun category =>
                   name <~ get category "name" ;;
                   confidence <~ get category "confidence" ;;
                   Ok (JObj [("name", name); ("confidence", confidence)]))
                [] ;;
              Ok (JArr pushed))%js
      else ret null) ;;
   ret (JArr [sentiment_result; entity_result; syntax_result; classify_result]))%m.

Definition sentiment_result_dummy : value :=
  JArr [JObj [("magnitude", JNum 0); ("score", JNum 0)];
        JObj [("text", JStr "dummy_text"); ("magnitude", JNum 0); ("score", JNum 0)]].

Definition entity_result_dummy : value :=
  JArr [JObj [("name", JStr "dummy_name"); ("type", JStr "OTHER"); ("salience", JNum 0)]].

Definition syntax_result_dummy : value :=
  JArr [JObj [("word", JStr "dummy_word"); ("partOfSpeech", JStr "NOUN")]].

Definition classify_result_dummy : value :=
  JArr [JObj [("name", JStr "dummy_category"); ("confidence", JNum 0)]].

(** nlp.js, lines 121-152.  The four [let] variables are assigned in the
    [try] body or in the handler and returned as an array afterwards. *)
Definition analyzeTextWrapper (text : string)
    (analyze_sentiment analyze_entities analyze_syntax classify_content : bool)
    : M W value :=
  (vars <-
     try_catch
       (result <- analyzeText text analyze_sentiment analyze_entities
                    analyze_syntax classify_content ;;
        lift (sentiment_result <~ index result 0 ;;
              entity_result <~ index result 1 ;;
              syntax_result <~ index result 2 ;;
              classify_result <~ index result 3 ;;
              Ok (sentiment_result, entity_result, syntax_result, classify_result))%js)
       (fun err =>
          let sentiment_result := if analyze_sentiment then sentiment_result_dummy else null in
          let entity_result := if analyze_entities then entity_result_dummy else null in
          let syntax_result := if analyze_syntax then syntax_result_dummy else null in
          let classify_result := if classify_content then classify_result_dummy else null in
          ret (sentiment_result, entity_result, syntax_result, classify_result)) ;;
   let '(sentiment_result, entity_result, syntax_result, classify_result) := vars in
   ret (JArr [sentiment_result; entity_result; syntax_result; classify_result]))%m.

(** nlp.js, line 202: [module.exports = analyzeText]. *)
Definition module_exports := analyzeText.

End Facade.

(** ** Reading the function stage by stage *)

Section Stages.

Context {W : Type}.
Variable client : LanguageService W.

(** The reshaping done on each resolved response, lines 69-82, 88-89, 95-102
    and 108-115. *)
Definition shape_sentence (sentence : value) : Result value :=
  (text_ <~ get sentence "text" ;;
   content <~ get text_ "content" ;;
   sentiment <~ get sentence "sentiment" ;;
   magnitude_ <~ get sentiment "magnitude" ;;
   sentiment' <~ get sentence "sentiment" ;;
   score_ <~ get sentiment' "score" ;;
   Ok (JObj [("text", content); ("magnitude", magnitude_); ("score", score_)]))%js.

Definition shape_sentiment (response : value) : Result value :=
  (sentiment_result_raw <~ destructure_first response ;;
   documentSentiment <~ get sentiment_result_raw "documentSentiment" ;;
   magnitude <~ get documentSentiment "magnitude" ;;
   documentSentiment' <~ get sentiment_result_raw "documentSentiment" ;;
   score <~ get documentSentiment' "score" ;;
   sentences <~ get sentiment_result_raw "sentences" ;;
   items <~ iterate sentences ;;
   pushed <~ for_of_push items shape_sentence
               [JObj [("magnitude", magnitude); ("score", score)]] ;;
   Ok (JArr pushed))%js.

Definition shape_entities (response : value) : Result value :=
  (entity_result_raw <~ destructure_first response ;;
   get entity_result_raw "entities")%js.

Definition shape_token (token : value) : Result value :=
  (partOfSpeech <~ get token "partOfSpeech" ;;
   tag <~ get partOfSpeech "tag" ;;
   text_ <~ get token "text" ;;
   content <~ get text_ "content" ;;
   Ok (JObj [("partOfSpeech", tag); ("word", content)]))%js.

Definition shape_syntax (response : value) : Result value :=
  (syntax_result_raw <~ destructure_first response ;;
   tokens <~ get syntax_result_raw "tokens" ;;
   items <~ iterate tokens ;;
   pushed <~ for_of_push items shape_token [] ;;
   Ok (JArr pushed))%js.

Definition shape_category (category : value) : Result value :=
  (name <~ get category "name" ;;
   confidence <~ get category "confidence" ;;
   Ok (JObj [("name", name); ("confidence", confidence)]))%js.

Definition shape_classify (response : value) : Result value :=
  (classify_result_raw <~ destructure_first response ;;
   categories <~ get classify_result_raw "categories" ;;
   items <~ iterate categories ;;
   pushed <~ for_of_push items shape_category [] ;;
   Ok (JArr pushed))%js.

Definition shape_of (method : Method) : value -> Result value :=
  match method with
  | analyzeSentiment => shape_sentiment
  | analyzeEntities => shape_entities
  | analyzeSyntax => shape_syntax
  | classifyText => shape_classify
  end.

(** One [if (flag) { ... }] block. *)
Definition stage (text : string) (flag : bool) (method : Method) : M W value :=
  (if flag then
     response <- await client method (make_request text) ;;
     lift (shape_of method response)
   else ret null)%m.

End Stages.

(** ** Observations on the requests a call issued *)

Definition rejected (r : Response) : bool :=
  match r with
  | Rejected _ => true
  | Resolved _ => false
  end.

(** Some request issued during the call failed. *)
Definition some_request_failed (log : list Event) : bool :=
  existsb (fun ev => rejected (snd ev)) log.

(** How the (first) request to [method] settled, if one was issued. *)
Fixpoint response_to (method : Method) (log : list Event) : option Response :=
  match log with
  | [] => None
  | (m, _, r) :: rest => if Method_eqb m method then Some r else response_to method rest
  end.

(** The object [raw] bound by [let [raw] = await client.method(...)]. *)
Definition payload (method : Method) (log : list Event) : option value :=
  match response_to method log with
  | Some (Resolved v) =>
      match destructure_first v with
      | Ok raw => Some raw
      | Throw _ => None
      end
  | _ => None
  end.

(** [o.p.q]. *)
Definition get2 (o : value) (p q : string) : Result value :=
  rbind (get o p) (fun x => get x q).

(** [o.p] read as an iterable. *)
Definition get_items (o : value) (p : string) : Result (list value) :=
  rbind (get o p) iterate.


(** ** The statements of the specification, in its own words *)

(** What a successful run says about one slot: either its flag was off, no
    request went out and the slot is [null], or the request resolved and the
    slot is the reshaped response. *)
Definition slot_from (flag : bool) (method : Method) (log : list Event)
    (slot : value) : Prop :=
  if flag
  then exists v, response_to method log = Some (Resolved v) /\ shape_of method v = Ok slot
  else slot = null /\ response_to method log = None.

(** The fixed placeholder of each kind, as the specification lists them. *)
Definition placeholder (method : Method) : value :=
  match method with
  | analyzeSentiment =>
      JArr [JObj [("magnitude", JNum 0); ("score", JNum 0)];
            JObj [("text", JStr "dummy_text"); ("magnitude", JNum 0); ("score", JNum 0)]]
  | analyzeEntities =>
      JArr [JObj [("name", JStr "dummy_name"); ("type", JStr "OTHER"); ("salience", JNum 0)]]
  | analyzeSyntax =>
      JArr [JObj [("word", JStr "dummy_word"); ("partOfSpeech", JStr "NOUN")]]
  | classifyText =>
      JArr [JObj [("name", JStr "dummy_category"); ("confidence", JNum 0)]]
  end.

(** The outcome of the fallback: the placeholder in every requested slot,
    [null] in the others. *)
Definition fallback_outcome (fs fe fy fc : bool) : value :=
  JArr [if fs then placeholder analyzeSentiment else null;
        if fe then placeholder analyzeEntities else null;
        if fy then placeholder analyzeSyntax else null;
        if fc then placeholder classifyText else null].

(** P1: a slot is [null] if and only if its flag is false. *)
Definition flag_gated (flag : bool) (slot : value) : Prop :=
  slot = null <-> flag = false.

(** The aggregate record [{magnitude, score}] of a sentiment response. *)
Definition document_record (raw rec : value) : Prop :=
  exists magnitude score,
    get2 raw "documentSentiment" "magnitude" = Ok magnitude /\
    get2 raw "documentSentiment" "score" = Ok score /\
    rec = JObj [("magnitude", magnitude); ("score", score)].

(** The record [{text, magnitude, score}] of one sentence. *)
Definition sentence_record (sentence rec : value) : Prop :=
  exists content magnitude score,
    get2 sentence "text" "content" = Ok content /\
    get2 sentence "sentiment" "magnitude" = Ok magnitude /\
    get2 sentence "sentiment" "score" = Ok score /\
    rec = JObj [("text", content); ("magnitude", magnitude); ("score", score)].

(** The record [{partOfSpeech, word}] of one token. *)
Definition token_record (token rec : value) : Prop :=
  exists tag content,
    get2 token "partOfSpeech" "tag" = Ok tag /\
    get2 token "text" "content" = Ok content /\
    rec = JObj [("partOfSpeech", tag); ("word", content)].

(** The record [{name, confidence}] of one category. *)
Definition category_record (category rec : value) : Prop :=
  exists name confidence,
    get category "name" = Ok name /\
    get category "confidence" = Ok confidence /\
    rec = JObj [("name", name); ("confidence", confidence)].

(** The projection of an entity onto [{name, type, salience}] that the
    specification's entity normalization describes. *)
Definition project_entity (entity : value) : Result value :=
  (name <~ get entity "name" ;;
   type_ <~ get entity "type" ;;
   salience <~ get entity "salience" ;;
   Ok (JObj [("name", name); ("type", type_); ("salience", salience)]))%js.

(** The entities slot as the specification words it: one projection per
    entity of the collaborator, in the order returned. *)
Definition entities_projected (entities : list value) (slot : value) : Prop :=
  exists recs,
    slot = JArr recs /\
    Forall2 (fun entity rec => project_entity entity = Ok rec) entities recs.

(** The collaborator's contract for entity analysis, on the requests of one
    call: an entity response that resolved carries a list in [entities]. *)
Definition entity_list_contract (log : list Event) : Prop :=
  forall raw,
    payload analyzeEntities log = Some raw ->
    exists entities, get raw "entities" = Ok (JArr entities).

(** A collaborator whose answers depend on the request alone, not on what
    it was asked before. *)
Definition deterministic {W : Type} (svc : LanguageService W) : Prop :=
  (forall k w w', fst (connect svc k w) = fst (connect svc k w')) /\
  (forall method request w w',
     fst (serve svc method request w) = fst (serve svc method request w')).

(** A computation whose result and requests do not depend on the
    collaborator state it starts from. *)
Definition state_independent {W A : Type} (m : M W A) : Prop :=
  forall w w', outcome (m w) = outcome (m w') /\ issued (m w) = issued (m w').

(** ** Collaborators to run the module against *)

Module Mock.

Definition sentence (content : string) (magnitude score : Q) : value :=
  JObj [("text", JObj [("content", JStr content); ("beginOffset", JNum 0)]);
        ("sentiment", JObj [("magnitude", JNum magnitude); ("score", JNum score)])].

Definition sentiment_response : value :=
  JArr [JObj [("sentences", JArr [sentence "I love this." (9#10) (9#10)]);
              ("documentSentiment",
               JObj [("magnitude", JNum (9#10)); ("score", JNum (9#10))]);
              ("language", JStr "en")];
        undefined; undefined].

(** An entity as the language service returns it: name, type and salience
    among other fields. *)
Definition entity : value :=
  JObj [("mentions", JArr []);
        ("metadata", JObj [("wikipedia_url", JStr "https://en.wikipedia.org/wiki/Ottawa")]);
        ("name", JStr "Ottawa");
        ("type", JStr "LOCATION");
        ("salience", JNum (3#4))].

Definition entities_response : value :=
  JArr [JObj [("entities", JArr [entity]); ("language", JStr "en")];
        undefined; undefined].

Definition token (content tag lemma : string) : value :=
  JObj [("text", JObj [("content", JStr content); ("beginOffset", JNum 0)]);
        ("partOfSpeech", JObj [("tag", JStr tag); ("number", JStr "SINGULAR")]);
        ("dependencyEdge", JObj [("headTokenIndex", JNum 1); ("label", JStr "NSUBJ")]);
        ("lemma", JStr lemma)].

Definition syntax_response : value :=
  JArr [JObj [("sentences", JArr []);
              ("tokens", JArr [token "I" "PRON" "I"; token "love" "VERB" "love"]);
              ("language", JStr "en")];
        undefined; undefined].

Definition classify_response : value :=
  JArr [JObj [("categories", JArr [])]; undefined; undefined].

Definition answer (method : Method) : value :=
  match method with
  | analyzeSentiment => sentiment_response
  | analyzeEntities => entities_response
  | analyzeSyntax => syntax_response
  | classifyText => classify_response
  end.

(** Answers every request; its state counts the requests served. *)
Definition healthy : LanguageService nat := {|
  connect := fun _ n => (Ok tt, n);
  serve := fun method _ n => (Resolved (answer method), S n)
|}.

(** Answers like [healthy], except that syntax requests are rejected. *)
Definition syntax_down : LanguageService nat := {|
  connect := fun _ n => (Ok tt, n);
  serve := fun method _ n =>
    (match method with
     | analyzeSyntax => Rejected (JStr "14 UNAVAILABLE")
     | _ => Resolved (answer method)
     end, S n)
|}.

(** Rejects every request. *)
Definition unreachable : LanguageService nat := {|
  connect := fun _ n => (Ok tt, n);
  serve := fun _ _ n => (Rejected (JStr "14 UNAVAILABLE"), S n)
|}.

(** Resolves entity requests with a response whose [entities] is [null]. *)
Definition null_entities : LanguageService nat := {|
  connect := fun _ n => (Ok tt, n);
  serve := fun method _ n =>
    (match method with
     | analyzeEntities => Resolved (JArr [JObj [("entities", null)]])
     | _ => Resolved (answer method)
     end, S n)
|}.

(** Answers the first request it is asked and rejects all later ones. *)
Definition quota_of_one : LanguageService nat := {|
  connect := fun _ n => (Ok tt, n);
  serve := fun method _ n =>
    (match n with
     | O => Resolved (answer method)
     | S _ => Rejected (JStr "8 RESOURCE_EXHAUSTED")
     end, S n)
|}.

(** Resolves every request with a response that has no sentences, entities,
    tokens or categories, as for an empty text. *)
Definition silent : LanguageService nat := {|
  connect := fun _ n => (Ok tt, n);
  serve := fun method _ n =>
    (Resolved
       (JArr [JObj [("documentSentiment",
                     JObj [("magnitude", JNum 0); ("score", JNum 0)]);
                    ("sentences", JArr []);
                    ("entities", JArr []);
                    ("tokens", JArr []);
                    ("categories", JArr [])]]), S n)
|}.

(** The outcomes of the example scenarios A and C of the specification. *)
Definition scenario_A : value :=
  JArr [JArr [JObj [("magnitude", JNum (9#10)); ("score", JNum (9#10))];
              JObj [("text", JStr "I love this.");
                    ("magnitude", JNum (9#10)); ("score", JNum (9#10))]];
        null; null; null].

Definition scenario_C : value :=
  JArr [JArr [JObj [("magnitude", JNum 0); ("score", JNum 0)]];
        JArr []; JArr []; JArr []].

(** What [healthy] makes of a call with every flag set. *)
Definition full_outcome : value :=
  JArr [JArr [JObj [("magnitude", JNum (9#10)); ("score", JNum (9#10))];
              JObj [("text", JStr "I love this.");
                    ("magnitude", JNum (9#10)); ("score", JNum (9#10))]];
        JArr [entity];
        JArr [JObj [("partOfSpeech", JStr "PRON"); ("word", JStr "I")];
              JObj [("partOfSpeech", JStr "VERB"); ("word", JStr "love")]];
        JArr []].

End Mock.

(** ** What the code needs of a response, and what it asks for *)

Definition nonnullish (v : value) : bool :=
  match v with
  | undefined | null => false
  | _ => true
  end.

(** [o.p] can be read and is neither [undefined] nor [null], so that a
    property of it can be read in turn. *)
Definition has (o : value) (p : string) : bool :=
  match get o p with
  | Ok v => nonnullish v
  | Throw _ => false
  end.

(** [o.p] can be iterated and every item passes [ok]. *)
Definition all_items (o : value) (p : string) (ok : value -> bool) : bool :=
  match get_items o p with
  | Ok items => forallb ok items
  | Throw _ => false
  end.

Definition sentence_ok (sentence : value) : bool :=
  has sentence "text" && has sentence "sentiment".

Definition token_ok (token : value) : bool :=
  has token "partOfSpeech" && has token "text".

(** The reads that lines 69-82, 88-89, 95-102 and 108-115 make on the object
    bound by the destructuring, collected per method. *)
Definition payload_ok (method : Method) (raw : value) : bool :=
  match method with
  | analyzeSentiment =>
      has raw "documentSentiment" && all_items raw "sentences" sentence_ok
  | analyzeEntities => nonnullish raw
  | analyzeSyntax => all_items raw "tokens" token_ok
  | classifyText => all_items raw "categories" nonnullish
  end.

Definition well_formed (method : Method) (response : value) : bool :=
  match destructure_first response with
  | Ok raw => payload_ok method raw
  | Throw _ => false
  end.

(** The request resolved with a response the code can reshape. *)
Definition event_ok (ev : Event) : bool :=
  match ev with
  | (method, _, Resolved v) => well_formed method v
  | (_, _, Rejected _) => false
  end.

(** The request resolved, with a response the code cannot reshape. *)
Definition malformed (ev : Event) : bool :=
  match ev with
  | (method, _, Resolved v) => negb (well_formed method v)
  | (_, _, Rejected _) => false
  end.

(** What a request that did not go well makes the function throw. *)
Definition raised_by (ev : Event) : exn :=
  match ev with
  | (_, _, Rejected reason) => Reason reason
  | (_, _, Resolved _) => TypeError
  end.

Definition method_of (ev : Event) : Method := fst (fst ev).

Definition request_of (ev : Event) : value := snd (fst ev).

(** The methods of the blocks whose flag is set, in the order of the
    source. *)
Definition requested (fs fe fy fc : bool) : list Method :=
  (if fs then [analyzeSentiment] else []) ++
  (if fe then [analyzeEntities] else []) ++
  (if fy then [analyzeSyntax] else []) ++
  (if fc then [classifyText] else []).

Definition flag_of (method : Method) (fs fe fy fc : bool) : bool :=
  match method with
  | analyzeSentiment => fs
  | analyzeEntities => fe
  | analyzeSyntax => fy
  | classifyText => fc
  end.

Definition has_key (p : string) (v : value) : bool :=
  existsb (fun k => String.eqb k p) (keys v).

(** A collaborator that connects and resolves every request with a response
    the code can reshape. *)
Definition well_behaved {W : Type} (svc : LanguageService W) : Prop :=
  (forall k w, fst (connect svc k w) = Ok tt) /\
  (forall method request w,
     exists v, fst (serve svc method request w) = Resolved v /\
               well_formed method v = true).

(** More collaborators to run the module against. *)
Module Faulty.

(** The client library cannot be loaded or constructed. *)
Definition no_client : LanguageService nat := {|
  connect := fun _ n => (Throw (Reason (JStr "Cannot find module")), n);
  serve := fun method _ n => (Resolved (Mock.answer method), S n)
|}.

(** Answers like [Mock.healthy], except that one sentence of the sentiment
    response comes without its [text]. *)
Definition textless_sentence : LanguageService nat := {|
  connect := fun _ n => (Ok tt, n);
  serve := fun method _ n =>
    (match method with
     | analyzeSentiment =>
         Resolved
           (JArr [JObj [("documentSentiment",
                         JObj [("magnitude", JNum (9#10)); ("score", JNum (9#10))]);
                        ("sentences",
                         JArr [Mock.sentence "I love this." (9#10) (9#10);
                               JObj [("sentiment",
                                      JObj [("magnitude", JNum 0); ("score", JNum 0)])]])]])
     | _ => Resolved (Mock.answer method)
     end, S n)
|}.

(** Answers like [Mock.healthy], except that the entity response has no
    [entities] property. *)
Definition no_entities_key : LanguageService nat := {|
  connect := fun _ n => (Ok tt, n);
  serve := fun method _ n =>
    (match method with
     | analyzeEntities => Resolved (JArr [JObj [("language", JStr "en")]])
     | _ => Resolved (Mock.answer method)
     end, S n)
|}.

(** Answers like [Mock.healthy], with two categories for classification. *)
Definition two_categories : LanguageService nat := {|
  connect := fun _ n => (Ok tt, n);
  serve := fun method _ n =>
    (match method with
     | classifyText =>
         Resolved
           (JArr [JObj [("categories",
                         JArr [JObj [("name", JStr "/Arts & Entertainment");
                                     ("confidence", JNum (4#5));
                                     ("score", JNum (4#5))];
                               JObj [("name", JStr "/Hobbies & Leisure");
                                     ("confidence", JNum (1#2))]])]])
     | _ => Resolved (Mock.answer method)
     end, S n)
|}.

Definition two_categories_outcome : value :=
  JArr [null; null; null;
        JArr [JObj [("name", JStr "/Arts & Entertainment"); ("confidence", JNum (4#5))];
              JObj [("name", JStr "/Hobbies & Leisure"); ("confidence", JNum (1#2))]]].

End Faulty.

(** ** General facts about runs *)

Lemma for_of_push_spec body items : forall acc out,
  for_of_push items body acc = Ok out ->
  exists recs, out = acc ++ recs /\ Forall2 (fun x r => body x = Ok r) items recs.
Proof.
  induction items as [|x rest IH]; intros acc out H; simpl in H.
  - injection H as <-. exists []. rewrite app_nil_r. split; [reflexivity | constructor].
  - destruct (body x) as [r|e] eqn:Hx; [|discriminate].
    destruct (IH _ _ H) as (recs & -> & Hall).
    exists (r :: recs). rewrite <- app_assoc. split; [reflexivity|].
    constructor; assumption.
Qed.

Lemma Forall2_length_eq {A B} (R : A -> B -> Prop) xs ys :
  Forall2 R xs ys -> List.length ys = List.length xs.
Proof. induction 1; simpl; congruence. Qed.

Lemma Forall2_weaken {A B} (R R' : A -> B -> Prop) xs ys :
  (forall x y, R x y -> R' x y) -> Forall2 R xs ys -> Forall2 R' xs ys.
Proof. intros HR; induction 1; constructor; auto. Qed.

Lemma Forall2_right {A B} (R : A -> B -> Prop) (P : B -> Prop) xs ys :
  (forall x y, R x y -> P y) -> Forall2 R xs ys -> Forall P ys.
Proof. intros HR; induction 1; constructor; eauto. Qed.

(** ** Reading the reshaped records *)

Ltac result_inv H :=
  repeat match type of H with
         | rbind ?r _ = Ok _ =>
             let E := fresh "E" in
             destruct r eqn:E; cbn [rbind] in H; [|discriminate H]
         end.

Ltac replay :=
  cbn [rbind];
  repeat match goal with
         | E : ?x = Ok _ |- context [?x] => rewrite E; cbn [rbind]
         end.

Lemma shape_sentence_record sentence rec :
  shape_sentence sentence = Ok rec -> sentence_record sentence rec.
Proof.
  unfold shape_sentence, sentence_record, get2. intros H. result_inv H.
  injection H as <-. do 3 eexists. replay.
  repeat split; reflexivity.
Qed.

Lemma shape_token_record token rec :
  shape_token token = Ok rec -> token_record token rec.
Proof.
  unfold shape_token, token_record, get2. intros H. result_inv H.
  injection H as <-. do 2 eexists. replay.
  repeat split; reflexivity.
Qed.

Lemma shape_category_record category rec :
  shape_category category = Ok rec -> category_record category rec.
Proof.
  unfold shape_category, category_record. intros H. result_inv H.
  injection H as <-. do 2 eexists. repeat split; eauto.
Qed.

Ltac loop_inv recs Hall :=
  match goal with
  | E : for_of_push _ _ _ = Ok _ |- _ =>
      destruct (for_of_push_spec _ _ _ _ E) as (recs & -> & Hall)
  end.

Lemma shape_sentiment_inv response slot :
  shape_sentiment response = Ok slot ->
  exists raw items head recs,
    destructure_first response = Ok raw /\
    get_items raw "sentences" = Ok items /\
    document_record raw head /\
    Forall2 sentence_record items recs /\
    slot = JArr (head :: recs).
Proof.
  unfold shape_sentiment, get_items, document_record, get2. intros H. result_inv H.
  injection H as <-. loop_inv recs Hall.
  do 3 eexists. exists recs. cbn [rbind app].
  split; [reflexivity|]. replay. split; [reflexivity|].
  split; [do 2 eexists; replay; repeat split; reflexivity|].
  split; [|reflexivity].
  eapply Forall2_weaken; [|exact Hall]. apply shape_sentence_record.
Qed.

Lemma shape_entities_inv response slot :
  shape_entities response = Ok slot ->
  exists raw, destructure_first response = Ok raw /\ get raw "entities" = Ok slot.
Proof.
  unfold shape_entities. intros H. result_inv H. eauto.
Qed.

Lemma shape_syntax_inv response slot :
  shape_syntax response = Ok slot ->
  exists raw items recs,
    destructure_first response = Ok raw /\
    get_items raw "tokens" = Ok items /\
    Forall2 token_record items recs /\
    slot = JArr recs.
Proof.
  unfold shape_syntax, get_items. intros H. result_inv H.
  injection H as <-. loop_inv recs Hall.
  do 2 eexists. exists recs. cbn [rbind app].
  split; [reflexivity|]. replay. split; [reflexivity|]. split; [|reflexivity].
  eapply Forall2_weaken; [|exact Hall]. apply shape_token_record.
Qed.

Lemma shape_classify_inv response slot :
  shape_classify response = Ok slot ->
  exists raw items recs,
    destructure_first response = Ok raw /\
    get_items raw "categories" = Ok items /\
    Forall2 category_record items recs /\
    slot = JArr recs.
Proof.
  unfold shape_classify, get_items. intros H. result_inv H.
  injection H as <-. loop_inv recs Hall.
  do 2 eexists. exists recs. cbn [rbind app].
  split; [reflexivity|]. replay. split; [reflexivity|]. split; [|reflexivity].
  eapply Forall2_weaken; [|exact Hall]. apply shape_category_record.
Qed.

(** A classification response without categories reshapes to the empty
    array. *)
Lemma shape_classify_empty response raw :
  destructure_first response = Ok raw ->
  get_items raw "categories" = Ok [] ->
  shape_classify response = Ok (JArr []).
Proof.
  unfold shape_classify, get_items. intros -> H. cbn [rbind].
  destruct (get raw "categories") as [c|]; cbn [rbind] in *; [|discriminate].
  now rewrite H.
Qed.

Lemma payload_resolved method log v raw :
  response_to method log = Some (Resolved v) ->
  destructure_first v = Ok raw ->
  payload method log = Some raw.
Proof. unfold payload. now intros -> ->. Qed.

Lemma payload_inv method log raw :
  payload method log = Some raw ->
  exists v, response_to method log = Some (Resolved v) /\ destructure_first v = Ok raw.
Proof.
  unfold payload.
  destruct (response_to method log) as [[v|]|]; try discriminate.
  destruct (destructure_first v) eqn:E; try discriminate.
  intros [= <-]. eauto.
Qed.

(** ** Runs of [analyzeText] and of its wrapper *)

Section Runs.

Context {W : Type}.
Variable client : LanguageService W.

Lemma analyzeText_stages text fs fe fy fc :
  analyzeText client text fs fe fy fc =
  (_ <- new_LanguageServiceClient client key ;;
   sentiment_result <- stage client text fs analyzeSentiment ;;
   entity_result <- stage client text fe analyzeEntities ;;
   syntax_result <- stage client text fy analyzeSyntax ;;
   classify_result <- stage client text fc classifyText ;;
   ret (JArr [sentiment_result; entity_result; syntax_result; classify_result]))%m.
Proof. reflexivity. Qed.

Ltac run_step :=
  match goal with
  | |- context [connect client ?k ?w] =>
      let r := fresh "r" in let w' := fresh "w" in
      destruct (connect client k w) as [r w']; destruct r
  | |- context [serve client ?m ?q ?w] =>
      let r := fresh "r" in let w' := fresh "w" in
      destruct (serve client m q w) as [r w']; destruct r
  | |- context [shape_of ?m ?v] =>
      let E := fresh "E" in destruct (shape_of m v) eqn:E
  end; cbn [outcome after issued app].

Ltac run_open :=
  rewrite analyzeText_stages;
  unfold stage, bind, await, lift, ret, new_LanguageServiceClient;
  cbn [outcome after issued app].

(** A run that returns has filled each slot from its own flag and request,
    and none of its requests was rejected. *)
Lemma analyzeText_ok text fs fe fy fc w res :
  outcome (analyzeText client text fs fe fy fc w) = Ok res ->
  exists s e y k,
    res = JArr [s; e; y; k] /\
    slot_from fs analyzeSentiment (issued (analyzeText client text fs fe fy fc w)) s /\
    slot_from fe analyzeEntities (issued (analyzeText client text fs fe fy fc w)) e /\
    slot_from fy analyzeSyntax (issued (analyzeText client text fs fe fy fc w)) y /\
    slot_from fc classifyText (issued (analyzeText client text fs fe fy fc w)) k /\
    some_request_failed (issued (analyzeText client text fs fe fy fc w)) = false.
Proof.
  run_open.
  destruct fs, fe, fy, fc; repeat run_step; intros H; try discriminate H;
    injection H as <-; do 4 eexists; (split; [reflexivity|]);
    unfold slot_from; cbn;
    repeat split; eauto.
Qed.

(** A rejected request ends the run at once, with the rejection reason as
    the thrown value; it is the last request the run issued. *)
Lemma analyzeText_rejected text fs fe fy fc w :
  some_request_failed (issued (analyzeText client text fs fe fy fc w)) = true ->
  exists log method request reason,
    issued (analyzeText client text fs fe fy fc w) =
      log ++ [(method, request, Rejected reason)] /\
    some_request_failed log = false /\
    outcome (analyzeText client text fs fe fy fc w) = Throw (Reason reason).
Proof.
  run_open.
  destruct fs, fe, fy, fc; repeat run_step; cbn; intros H; try discriminate H;
    match goal with
    | |- exists _ _ _ _, ?l = _ /\ _ => exists (removelast l)
    end; do 3 eexists; cbn; repeat split; reflexivity.
Qed.

(** The classification request is the last step that can fail: once it has
    resolved, the run ends as the reshaping of its response does. *)
Lemma analyzeText_classified text fs fe fy fc w v :
  response_to classifyText (issued (analyzeText client text fs fe fy fc w)) =
    Some (Resolved v) ->
  fc = true /\
  exists s e y,
    outcome (analyzeText client text fs fe fy fc w) =
      rbind (shape_classify v) (fun k => Ok (JArr [s; e; y; k])).
Proof.
  run_open.
  destruct fs, fe, fy, fc; repeat run_step; cbn; intros H; try discriminate H;
    injection H as <-; (split; [reflexivity|]); do 3 eexists;
    change (shape_of classifyText) with shape_classify in *;
    match goal with E : shape_classify _ = _ |- _ => rewrite E end;
    reflexivity.
  Unshelve. all: exact null.
Qed.

(** The wrapper in terms of the run of [analyzeText] it encloses. *)
Lemma analyzeTextWrapper_run text fs fe fy fc w :
  analyzeTextWrapper client text fs fe fy fc w =
  match analyzeText client text fs fe fy fc w with
  | mkRun (Ok res) w1 log => mkRun (Ok res) w1 log
  | mkRun (Throw _) w1 log =>
      mkRun (Ok (JArr [if fs then sentiment_result_dummy else null;
                       if fe then entity_result_dummy else null;
                       if fy then syntax_result_dummy else null;
                       if fc then classify_result_dummy else null])) w1 log
  end.
Proof.
  pose proof (analyzeText_ok text fs fe fy fc w) as Hok.
  unfold analyzeTextWrapper, bind, try_catch, lift, ret.
  destruct (analyzeText client text fs fe fy fc w) as [[res|e] w1 log]; cbn in *.
  - destruct (Hok res eq_refl) as (s & e & y & k & -> & _). cbn.
    now rewrite !app_nil_r.
  - now rewrite !app_nil_r.
Qed.

Lemma analyzeTextWrapper_issued text fs fe fy fc w :
  issued (analyzeTextWrapper client text fs fe fy fc w) =
  issued (analyzeText client text fs fe fy fc w).
Proof.
  rewrite analyzeTextWrapper_run.
  now destruct (analyzeText client text fs fe fy fc w) as [[res|e] w1 log].
Qed.

Lemma analyzeTextWrapper_after text fs fe fy fc w :
  after (analyzeTextWrapper client text fs fe fy fc w) =
  after (analyzeText client text fs fe fy fc w).
Proof.
  rewrite analyzeTextWrapper_run.
  now destruct (analyzeText client text fs fe fy fc w) as [[res|e] w1 log].
Qed.

Lemma analyzeTextWrapper_success text fs fe fy fc w res :
  outcome (analyzeText client text fs fe fy fc w) = Ok res ->
  outcome (analyzeTextWrapper client text fs fe fy fc w) = Ok res.
Proof.
  rewrite analyzeTextWrapper_run.
  destruct (analyzeText client text fs fe fy fc w) as [[r|e] w1 log];
    cbn; congruence.
Qed.

Lemma analyzeTextWrapper_fallback text fs fe fy fc w e :
  outcome (analyzeText client text fs fe fy fc w) = Throw e ->
  outcome (analyzeTextWrapper client text fs fe fy fc w) =
    Ok (fallback_outcome fs fe fy fc).
Proof.
  rewrite analyzeTextWrapper_run.
  destruct (analyzeText client text fs fe fy fc w) as [[r|e'] w1 log];
    cbn; [congruence|]. intros _. reflexivity.
Qed.

(** *** Independence from the collaborator's state *)

Lemma state_independent_ret {A} (a : A) : state_independent (ret (W := W) a).
Proof. intros w w'. split; reflexivity. Qed.

Lemma state_independent_lift {A} (r : Result A) : state_independent (lift (W := W) r).
Proof. intros w w'. split; reflexivity. Qed.

Lemma state_independent_bind {A B} (m : M W A) (k : A -> M W B) :
  state_independent m ->
  (forall a, state_independent (k a)) ->
  state_independent (bind m k).
Proof.
  intros Hm Hk w w'. unfold bind.
  destruct (Hm w w') as [Ho Hi].
  destruct (m w) as [o1 w1 l1], (m w') as [o1' w1' l1']; cbn in Ho, Hi; subst.
  destruct o1' as [a|e]; [|split; reflexivity].
  destruct (Hk a w1 w1') as [Ho Hi].
  destruct (k a w1) as [o2 w2 l2], (k a w1') as [o2' w2' l2']; cbn in *; subst.
  split; reflexivity.
Qed.

Lemma state_independent_try_catch {A} (body : M W A) (handler : exn -> M W A) :
  state_independent body ->
  (forall e, state_independent (handler e)) ->
  state_independent (try_catch body handler).
Proof.
  intros Hm Hk w w'. unfold try_catch.
  destruct (Hm w w') as [Ho Hi].
  destruct (body w) as [o1 w1 l1], (body w') as [o1' w1' l1']; cbn in Ho, Hi; subst.
  destruct o1' as [a|e]; [split; reflexivity|].
  destruct (Hk e w1 w1') as [Ho Hi].
  destruct (handler e w1) as [o2 w2 l2], (handler e w1') as [o2' w2' l2']; cbn in *; subst.
  split; reflexivity.
Qed.

Section Deterministic.

Hypothesis client_deterministic : deterministic client.

Lemma state_independent_new k :
  state_independent (new_LanguageServiceClient client k).
Proof.
  intros w w'. unfold new_LanguageServiceClient.
  pose proof (proj1 client_deterministic k w w') as H.
  destruct (connect client k w), (connect client k w'); cbn in *; subst.
  split; reflexivity.
Qed.

Lemma state_independent_await method request :
  state_independent (await client method request).
Proof.
  intros w w'. unfold await.
  pose proof (proj2 client_deterministic method request w w') as H.
  destruct (serve client method request w), (serve client method request w');
    cbn in *; subst.
  split; reflexivity.
Qed.

Lemma state_independent_stage text flag method :
  state_independent (stage client text flag method).
Proof.
  unfold stage. destruct flag.
  - apply state_independent_bind; [apply state_independent_await|].
    intros a. apply state_independent_lift.
  - apply state_independent_ret.
Qed.

Lemma state_independent_analyzeText text fs fe fy fc :
  state_independent (analyzeText client text fs fe fy fc).
Proof.
  rewrite analyzeText_stages.
  apply state_independent_bind; [apply state_independent_new | intros _].
  repeat (apply state_independent_bind; [apply state_independent_stage | intros ?]).
  apply state_independent_ret.
Qed.

Lemma state_independent_analyzeTextWrapper text fs fe fy fc :
  state_independent (analyzeTextWrapper client text fs fe fy fc).
Proof.
  unfold analyzeTextWrapper.
  apply state_independent_bind.
  - apply state_independent_try_catch.
    + apply state_independent_bind; [apply state_independent_analyzeText|].
      intros a. apply state_independent_lift.
    + intros e. apply state_independent_ret.
  - intros [[[s e] y] k]. apply state_independent_ret.
Qed.

End Deterministic.

(** *** The slots of a run that returns *)

Lemma sentiment_slot text fe fy fc w res :
  outcome (analyzeText client text true fe fy fc w) = Ok res ->
  exists raw items head recs,
    payload analyzeSentiment (issued (analyzeText client text true fe fy fc w)) = Some raw /\
    get_items raw "sentences" = Ok items /\
    document_record raw head /\
    Forall2 sentence_record items recs /\
    index res 0 = Ok (JArr (head :: recs)).
Proof.
  intros H.
  destruct (analyzeText_ok _ _ _ _ _ _ _ H) as (s & e & y & k & -> & Hs & _).
  destruct Hs as (v & Hv & Hshape).
  destruct (shape_sentiment_inv _ _ Hshape) as (raw & items & head & recs & Hraw & Hit & Hd & Hall & ->).
  exists raw, items, head, recs.
  repeat split; try assumption.
  eapply payload_resolved; eassumption.
Qed.

Lemma entities_slot text fs fy fc w res :
  outcome (analyzeText client text fs true fy fc w) = Ok res ->
  exists raw slot,
    payload analyzeEntities (issued (analyzeText client text fs true fy fc w)) = Some raw /\
    get raw "entities" = Ok slot /\
    index res 1 = Ok slot.
Proof.
  intros H.
  destruct (analyzeText_ok _ _ _ _ _ _ _ H) as (s & e & y & k & -> & _ & He & _).
  destruct He as (v & Hv & Hshape).
  destruct (shape_entities_inv _ _ Hshape) as (raw & Hraw & Hget).
  exists raw, e. repeat split; try assumption.
  eapply payload_resolved; eassumption.
Qed.

Lemma syntax_slot text fs fe fc w res :
  outcome (analyzeText client text fs fe true fc w) = Ok res ->
  exists raw items recs,
    payload analyzeSyntax (issued (analyzeText client text fs fe true fc w)) = Some raw /\
    get_items raw "tokens" = Ok items /\
    Forall2 token_record items recs /\
    index res 2 = Ok (JArr recs).
Proof.
  intros H.
  destruct (analyzeText_ok _ _ _ _ _ _ _ H) as (s & e & y & k & -> & _ & _ & Hy & _).
  destruct Hy as (v & Hv & Hshape).
  destruct (shape_syntax_inv _ _ Hshape) as (raw & items & recs & Hraw & Hit & Hall & ->).
  exists raw, items, recs. repeat split; try assumption.
  eapply payload_resolved; eassumption.
Qed.

Lemma classify_slot text fs fe fy w res :
  outcome (analyzeText client text fs fe fy true w) = Ok res ->
  exists raw items recs,
    payload classifyText (issued (analyzeText client text fs fe fy true w)) = Some raw /\
    get_items raw "categories" = Ok items /\
    Forall2 category_record items recs /\
    index res 3 = Ok (JArr recs).
Proof.
  intros H.
  destruct (analyzeText_ok _ _ _ _ _ _ _ H) as (s & e & y & k & -> & _ & _ & _ & Hk & _).
  destruct Hk as (v & Hv & Hshape).
  destruct (shape_classify_inv _ _ Hshape) as (raw & items & recs & Hraw & Hit & Hall & ->).
  exists raw, items, recs. repeat split; try assumption.
  eapply payload_resolved; eassumption.
Qed.

Lemma sentence_record_keys sentence rec :
  sentence_record sentence rec -> keys rec = ["text"; "magnitude"; "score"].
Proof. intros (c & m & s & _ & _ & _ & ->). reflexivity. Qed.

Lemma token_record_keys token rec :
  token_record token rec -> keys rec = ["partOfSpeech"; "word"].
Proof. intros (t & c & _ & _ & ->). reflexivity. Qed.

(** A slot that a stage filled after reshaping a sentiment, syntax or
    classification response is an array, hence not [null]. *)
Lemma shaped_not_null method v slot :
  method <> analyzeEntities ->
  shape_of method v = Ok slot -> slot <> null.
Proof.
  intros Hm H. destruct method; cbn [shape_of] in H.
  - destruct (shape_sentiment_inv _ _ H) as (? & ? & ? & ? & _ & _ & _ & _ & ->). discriminate.
  - contradiction.
  - destruct (shape_syntax_inv _ _ H) as (? & ? & ? & _ & _ & _ & ->). discriminate.
  - destruct (shape_classify_inv _ _ H) as (? & ? & ? & _ & _ & _ & ->). discriminate.
Qed.

Lemma slot_from_gated flag method log slot :
  method <> analyzeEntities ->
  slot_from flag method log slot -> flag_gated flag slot.
Proof.
  intros Hm H. unfold flag_gated. destruct flag; cbn in H.
  - destruct H as (v & _ & Hshape).
    pose proof (shaped_not_null _ _ _ Hm Hshape).
    split; [contradiction | discriminate].
  - destruct H as [-> _]. split; reflexivity.
Qed.

Lemma placeholder_gated flag method :
  flag_gated flag (if flag then placeholder method else null).
Proof.
  unfold flag_gated. destruct flag.
  - split; [destruct method; discriminate | discriminate].
  - split; reflexivity.
Qed.

(** ** The properties of the facade *)

(** C1 (P3, fallback is total): when a request issued during a call of
    [analyzeTextWrapper] fails, the call returns the fallback outcome: the
    fixed placeholder in every slot whose flag was true and [null] in every
    other slot.  The outcome then depends on the flags alone, so no slot
    holds data of the collaborator.  (A failed request implies that a flag
    was set.) *)
Theorem fallback_is_total text fs fe fy fc w :
  some_request_failed (issued (analyzeTextWrapper client text fs fe fy fc w)) = true ->
  outcome (analyzeTextWrapper client text fs fe fy fc w) =
    Ok (fallback_outcome fs fe fy fc).
Proof.
  rewrite analyzeTextWrapper_issued. intros H.
  destruct (analyzeText_rejected _ _ _ _ _ _ H) as (log & m & q & reason & _ & _ & Hthrow).
  eapply analyzeTextWrapper_fallback; eassumption.
Qed.

(** When a slot of the wrapper's outcome is [null]: the sentiment, syntax
    and classification slots exactly when their flag is false, the entities
    slot when its flag is false or when the call returned a response whose
    [entities] was [null]. *)
Lemma slot_nullness text fs fe fy fc w :
  exists s e y k,
    outcome (analyzeTextWrapper client text fs fe fy fc w) = Ok (JArr [s; e; y; k]) /\
    flag_gated fs s /\
    flag_gated fy y /\
    flag_gated fc k /\
    (e = null <->
     fe = false \/
     exists res raw,
       outcome (analyzeText client text fs fe fy fc w) = Ok res /\
       payload analyzeEntities (issued (analyzeTextWrapper client text fs fe fy fc w)) =
         Some raw /\
       get raw "entities" = Ok null).
Proof.
  rewrite analyzeTextWrapper_issued.
  destruct (outcome (analyzeText client text fs fe fy fc w)) as [res|err] eqn:H.
  - destruct (analyzeText_ok _ _ _ _ _ _ _ H) as (s & e & y & k & -> & Hs & He & Hy & Hk & _).
    exists s, e, y, k.
    split; [now apply analyzeTextWrapper_success|].
    split; [eapply slot_from_gated with (2 := Hs); discriminate|].
    split; [eapply slot_from_gated with (2 := Hy); discriminate|].
    split; [eapply slot_from_gated with (2 := Hk); discriminate|].
    destruct fe; cbn in He.
    + destruct He as (v & Hv & Hshape).
      destruct (shape_entities_inv _ _ Hshape) as (raw & Hraw & Hget).
      split.
      * intros ->. right. exists (JArr [s; null; y; k]), raw.
        split; [reflexivity|].
        split; [eapply payload_resolved; eassumption | assumption].
      * intros [Hoff | (res' & raw' & _ & Hp & Hnull)]; [discriminate Hoff|].
        destruct (payload_inv _ _ _ Hp) as (v' & Hv' & Hraw').
        assert (v' = v) as -> by congruence.
        assert (raw' = raw) as -> by congruence.
        congruence.
    + destruct He as [-> _]. split; [now left | reflexivity].
  - do 4 eexists.
    split; [eapply analyzeTextWrapper_fallback; eassumption|].
    split; [apply placeholder_gated|].
    split; [apply placeholder_gated|].
    split; [apply placeholder_gated|].
    split.
    + destruct fe; [discriminate | now left].
    + intros [-> | (res' & _ & Hres & _)]; [reflexivity | discriminate Hres].
Qed.

(** C3 (P1, flag gating): against a collaborator that keeps its contract for
    entity analysis (the [entities] of a response is a list), slot i of the
    outcome is [null] if and only if flag i is false, for each of the four
    slots, in the outcome the wrapper returns on the success path and on the
    fallback path alike; on the success path this is the outcome of
    [analyzeText] itself. *)
Theorem flag_gating_both_paths text fs fe fy fc w :
  entity_list_contract (issued (analyzeTextWrapper client text fs fe fy fc w)) ->
  exists s e y k,
    outcome (analyzeTextWrapper client text fs fe fy fc w) = Ok (JArr [s; e; y; k]) /\
    (forall res,
       outcome (analyzeText client text fs fe fy fc w) = Ok res ->
       res = JArr [s; e; y; k]) /\
    flag_gated fs s /\
    flag_gated fe e /\
    flag_gated fy y /\
    flag_gated fc k.
Proof.
  intros Hcontract.
  destruct (slot_nullness text fs fe fy fc w)
    as (s & e & y & k & Hout & Hs & Hy & Hk & He).
  exists s, e, y, k.
  split; [exact Hout|].
  split.
  - intros res Hres. apply analyzeTextWrapper_success in Hres. congruence.
  - repeat split; try apply Hs; try apply Hy; try apply Hk.
    + intros Hnull. apply He in Hnull.
      destruct Hnull as [Hoff | (res & raw & _ & Hp & Hget)]; [exact Hoff|].
      destruct (Hcontract raw Hp) as (entities & Hlist). congruence.
    + intros Hoff. apply He. now left.
Qed.

(** C4 (P2, sentiment shape): in a call that succeeds with the sentiment
    flag set, the sentiment slot is an array whose element 0 has exactly the
    fields magnitude and score, read from the collaborator's
    documentSentiment, followed by one record with exactly the fields text,
    magnitude and score per sentence of the response, in the order of the
    response; the wrapper returns the same outcome. *)
Theorem sentiment_shape text fe fy fc w res :
  outcome (analyzeText client text true fe fy fc w) = Ok res ->
  exists raw sentences head recs,
    payload analyzeSentiment (issued (analyzeText client text true fe fy fc w)) = Some raw /\
    get_items raw "sentences" = Ok sentences /\
    index res 0 = Ok (JArr (head :: recs)) /\
    document_record raw head /\
    keys head = ["magnitude"; "score"] /\
    Forall2 sentence_record sentences recs /\
    Forall (fun rec => keys rec = ["text"; "magnitude"; "score"]) recs /\
    1 <= List.length (head :: recs) /\
    outcome (analyzeTextWrapper client text true fe fy fc w) = Ok res.
Proof.
  intros H.
  destruct (sentiment_slot _ _ _ _ _ _ H) as (raw & items & head & recs & Hp & Hit & Hd & Hall & Hres).
  exists raw, items, head, recs.
  repeat split; try assumption.
  - destruct Hd as (m & s & _ & _ & ->). reflexivity.
  - eapply Forall2_right; [|exact Hall]. apply sentence_record_keys.
  - cbn. lia.
  - now apply analyzeTextWrapper_success.
Qed.

(** C5 as amended (entity normalization): in a call that succeeds with the
    entities flag set, the entities slot is the [entities] value of the
    collaborator's response itself: the same elements in the same order,
    each with all the fields the collaborator supplied, name, type and
    salience among them. *)
Theorem entities_passed_through text fs fy fc w res :
  outcome (analyzeText client text fs true fy fc w) = Ok res ->
  exists raw slot,
    payload analyzeEntities (issued (analyzeText client text fs true fy fc w)) = Some raw /\
    get raw "entities" = Ok slot /\
    index res 1 = Ok slot /\
    outcome (analyzeTextWrapper client text fs true fy fc w) = Ok res.
Proof.
  intros H.
  destruct (entities_slot _ _ _ _ _ _ H) as (raw & slot & Hp & Hget & Hres).
  exists raw, slot. repeat split; try assumption.
  now apply analyzeTextWrapper_success.
Qed.

(** C6 (syntax normalization): in a call that succeeds with the syntax flag
    set, the syntax slot holds one record per token of the response, in the
    order of the response, and each record has exactly the fields
    partOfSpeech (the token's partOfSpeech.tag) and word (the token's
    text.content): no other attribute of the token is carried over. *)
Theorem syntax_shape text fs fe fc w res :
  outcome (analyzeText client text fs fe true fc w) = Ok res ->
  exists raw tokens recs,
    payload analyzeSyntax (issued (analyzeText client text fs fe true fc w)) = Some raw /\
    get_items raw "tokens" = Ok tokens /\
    index res 2 = Ok (JArr recs) /\
    Forall2 token_record tokens recs /\
    Forall (fun rec => keys rec = ["partOfSpeech"; "word"]) recs /\
    outcome (analyzeTextWrapper client text fs fe true fc w) = Ok res.
Proof.
  intros H.
  destruct (syntax_slot _ _ _ _ _ _ H) as (raw & items & recs & Hp & Hit & Hall & Hres).
  exists raw, items, recs.
  repeat split; try assumption.
  - eapply Forall2_right; [|exact Hall]. apply token_record_keys.
  - now apply analyzeTextWrapper_success.
Qed.

(** C7 (P5, empty classification is valid): when the classification request
    of a call resolves with a response that has no categories, the call
    succeeds, the classification slot is the empty array, not the
    placeholder, and the wrapper returns that outcome. *)
Theorem empty_classification_is_valid text fs fe fy w raw :
  payload classifyText (issued (analyzeTextWrapper client text fs fe fy true w)) = Some raw ->
  get_items raw "categories" = Ok [] ->
  exists res,
    outcome (analyzeText client text fs fe fy true w) = Ok res /\
    outcome (analyzeTextWrapper client text fs fe fy true w) = Ok res /\
    index res 3 = Ok (JArr []) /\
    res <> fallback_outcome fs fe fy true.
Proof.
  rewrite analyzeTextWrapper_issued. intros Hp Hcats.
  destruct (payload_inv _ _ _ Hp) as (v & Hv & Hraw).
  destruct (analyzeText_classified _ _ _ _ _ _ _ Hv) as (_ & s & e & y & Hout).
  rewrite (shape_classify_empty _ _ Hraw Hcats) in Hout. cbn [rbind] in Hout.
  eexists. split; [exact Hout|].
  split; [now apply analyzeTextWrapper_success|].
  split; [reflexivity|]. discriminate.
Qed.

(** C8 (P4): against a collaborator whose answers depend on the request
    alone, a second call with the same text and flags returns the outcome of
    the first and issues the same requests, and the outcome is the same from
    whatever state the collaborator is in; this holds for the wrapper and for
    [analyzeText]. *)
Theorem analyze_deterministic text fs fe fy fc w :
  deterministic client ->
  (let first := analyzeTextWrapper client text fs fe fy fc w in
   let second := analyzeTextWrapper client text fs fe fy fc (after first) in
   outcome second = outcome first /\ issued second = issued first) /\
  (let first := analyzeText client text fs fe fy fc w in
   let second := analyzeText client text fs fe fy fc (after first) in
   outcome second = outcome first /\ issued second = issued first) /\
  (forall w',
     outcome (analyzeTextWrapper client text fs fe fy fc w') =
     outcome (analyzeTextWrapper client text fs fe fy fc w)).
Proof.
  intros Hdet. repeat split.
  - apply (state_independent_analyzeTextWrapper Hdet).
  - apply (state_independent_analyzeTextWrapper Hdet).
  - apply (state_independent_analyzeText Hdet).
  - apply (state_independent_analyzeText Hdet).
  - intros w'. apply (state_independent_analyzeTextWrapper Hdet).
Qed.

(** C9: the function the module exports is [analyzeText]; when a request it
    issued is rejected, it raises the rejection reason to its caller, while
    [analyzeTextWrapper], run on the same input, returns the fallback
    outcome. *)
Theorem exported_function_propagates text fs fe fy fc w :
  some_request_failed (issued (module_exports client text fs fe fy fc w)) = true ->
  exists method request reason,
    In (method, request, Rejected reason)
       (issued (module_exports client text fs fe fy fc w)) /\
    outcome (module_exports client text fs fe fy fc w) = Throw (Reason reason) /\
    outcome (analyzeTextWrapper client text fs fe fy fc w) =
      Ok (fallback_outcome fs fe fy fc).
Proof.
  unfold module_exports. intros H.
  destruct (analyzeText_rejected _ _ _ _ _ _ H) as (log & m & q & reason & Hlog & _ & Hthrow).
  exists m, q, reason. split; [|split].
  - rewrite Hlog. apply in_or_app. right. now left.
  - exact Hthrow.
  - eapply analyzeTextWrapper_fallback; eassumption.
Qed.

(** C10: in a call that succeeds, the sentiment slot has one element more
    than the response has sentences, the syntax slot as many elements as the
    response has tokens, and the classification slot as many as the response
    has categories. *)
Theorem slot_lengths text fs fe fy fc w res :
  outcome (analyzeText client text fs fe fy fc w) = Ok res ->
  (fs = true ->
   exists raw sentences slot,
     payload analyzeSentiment (issued (analyzeText client text fs fe fy fc w)) = Some raw /\
     get_items raw "sentences" = Ok sentences /\
     index res 0 = Ok (JArr slot) /\
     List.length slot = 1 + List.length sentences) /\
  (fy = true ->
   exists raw tokens slot,
     payload analyzeSyntax (issued (analyzeText client text fs fe fy fc w)) = Some raw /\
     get_items raw "tokens" = Ok tokens /\
     index res 2 = Ok (JArr slot) /\
     List.length slot = List.length tokens) /\
  (fc = true ->
   exists raw categories slot,
     payload classifyText (issued (analyzeText client text fs fe fy fc w)) = Some raw /\
     get_items raw "categories" = Ok categories /\
     index res 3 = Ok (JArr slot) /\
     List.length slot = List.length categories).
Proof.
  intros H. repeat split.
  - intros ->.
    destruct (sentiment_slot _ _ _ _ _ _ H) as (raw & items & head & recs & Hp & Hit & _ & Hall & Hres).
    exists raw, items, (head :: recs). repeat split; try assumption.
    cbn. now rewrite (Forall2_length_eq _ _ _ Hall).
  - intros ->.
    destruct (syntax_slot _ _ _ _ _ _ H) as (raw & items & recs & Hp & Hit & Hall & Hres).
    exists raw, items, recs. repeat split; try assumption.
    exact (Forall2_length_eq _ _ _ Hall).
  - intros ->.
    destruct (classify_slot _ _ _ _ _ _ H) as (raw & items & recs & Hp & Hit & Hall & Hres).
    exists raw, items, recs. repeat split; try assumption.
    exact (Forall2_length_eq _ _ _ Hall).
Qed.

(** ** Beyond the stated properties: requests, failures and malformed
    responses *)

(** *** When the reshaping of a response succeeds *)

Lemma get_throws_TypeError o p e : get o p = Throw e -> e = TypeError.
Proof. destruct o; cbn; congruence. Qed.

Lemma iterate_throws_TypeError v e : iterate v = Throw e -> e = TypeError.
Proof. destruct v; cbn; congruence. Qed.

Lemma destructure_first_throws_TypeError v e :
  destructure_first v = Throw e -> e = TypeError.
Proof.
  unfold destructure_first. destruct (iterate v) eqn:E; cbn; [discriminate|].
  intros [= <-]. eapply iterate_throws_TypeError; eassumption.
Qed.

(** Reading [o.p.q] goes well exactly when [has o p]. *)
Lemma get2_decide o p q :
  match get2 o p q with
  | Ok _ => has o p = true
  | Throw e => has o p = false /\ e = TypeError
  end.
Proof.
  unfold get2, has. destruct o; cbn; auto;
    match goal with |- context [lookup ?p ?f] => destruct (lookup p f) end;
    cbn; auto.
Qed.

Lemma shape_sentence_decide sentence :
  match shape_sentence sentence with
  | Ok _ => sentence_ok sentence = true
  | Throw e => sentence_ok sentence = false /\ e = TypeError
  end.
Proof.
  unfold shape_sentence, sentence_ok.
  pose proof (get2_decide sentence "text" "content") as D1.
  pose proof (get2_decide sentence "sentiment" "magnitude") as D2.
  pose proof (get2_decide sentence "sentiment" "score") as D3.
  unfold get2 in *.
  destruct (get sentence "text") as [t|e]; cbn [rbind] in *;
    [|destruct D1 as [-> ->]; auto].
  destruct (get t "content") as [c|e]; cbn [rbind] in *;
    [|destruct D1 as [-> ->]; auto].
  rewrite D1.
  destruct (get sentence "sentiment") as [sn|e]; cbn [rbind] in *;
    [|destruct D2 as [-> ->]; auto].
  destruct (get sn "magnitude") as [m|e]; cbn [rbind] in *;
    [|destruct D2 as [-> ->]; auto].
  destruct (get sn "score") as [sc|e]; cbn [rbind] in *;
    [|destruct D3 as [-> ->]; auto].
  now rewrite D2.
Qed.

Lemma shape_token_decide token :
  match shape_token token with
  | Ok _ => token_ok token = true
  | Throw e => token_ok token = false /\ e = TypeError
  end.
Proof.
  unfold shape_token, token_ok.
  pose proof (get2_decide token "partOfSpeech" "tag") as D1.
  pose proof (get2_decide token "text" "content") as D2.
  unfold get2 in *.
  destruct (get token "partOfSpeech") as [t|e]; cbn [rbind] in *;
    [|destruct D1 as [-> ->]; auto].
  destruct (get t "tag") as [c|e]; cbn [rbind] in *;
    [|destruct D1 as [-> ->]; auto].
  rewrite D1.
  destruct (get token "text") as [sn|e]; cbn [rbind] in *;
    [|destruct D2 as [-> ->]; auto].
  destruct (get sn "content") as [m|e]; cbn [rbind] in *;
    [|destruct D2 as [-> ->]; auto].
  now rewrite D2.
Qed.

Lemma shape_category_decide category :
  match shape_category category with
  | Ok _ => nonnullish category = true
  | Throw e => nonnullish category = false /\ e = TypeError
  end.
Proof. unfold shape_category. destruct category; cbn; auto. Qed.

Lemma for_of_push_decide body ok items :
  (forall x, match body x with
             | Ok _ => ok x = true
             | Throw e => ok x = false /\ e = TypeError
             end) ->
  forall acc,
    match for_of_push items body acc with
    | Ok _ => forallb ok items = true
    | Throw e => forallb ok items = false /\ e = TypeError
    end.
Proof.
  intros Hbody. induction items as [|x rest IH]; intros acc; cbn; [reflexivity|].
  specialize (Hbody x). destruct (body x) as [r|e].
  - rewrite Hbody. cbn. apply IH.
  - destruct Hbody as [-> ->]. auto.
Qed.

Lemma loop_decide raw p body ok acc :
  (forall x, match body x with
             | Ok _ => ok x = true
             | Throw e => ok x = false /\ e = TypeError
             end) ->
  match rbind (get raw p) (fun c =>
          rbind (iterate c) (fun items =>
            rbind (for_of_push items body acc) (fun pushed => Ok (JArr pushed)))) with
  | Ok _ => all_items raw p ok = true
  | Throw e => all_items raw p ok = false /\ e = TypeError
  end.
Proof.
  intros Hbody. unfold all_items, get_items.
  destruct (get raw p) as [c|e] eqn:Hget; cbn [rbind];
    [|split; [reflexivity | eapply get_throws_TypeError; eassumption]].
  destruct (iterate c) as [items|e] eqn:Hit; cbn [rbind];
    [|split; [reflexivity | eapply iterate_throws_TypeError; eassumption]].
  pose proof (for_of_push_decide body ok items Hbody acc) as D.
  destruct (for_of_push items body acc); cbn [rbind]; exact D.
Qed.

(** The reshaping of a response succeeds exactly on the well-formed ones,
    and fails with a TypeError on the others. *)
Lemma shape_of_decide method v :
  match shape_of method v with
  | Ok _ => well_formed method v = true
  | Throw e => well_formed method v = false /\ e = TypeError
  end.
Proof.
  unfold well_formed.
  destruct method; cbn [shape_of payload_ok];
    unfold shape_sentiment, shape_entities, shape_syntax, shape_classify;
    (destruct (destructure_first v) as [raw|e] eqn:Hfirst; cbn [rbind];
     [|split; [reflexivity | eapply destructure_first_throws_TypeError; eassumption]]).
  - pose proof (get2_decide raw "documentSentiment" "magnitude") as D1.
    pose proof (get2_decide raw "documentSentiment" "score") as D2.
    unfold get2 in *.
    destruct (get raw "documentSentiment") as [ds|e]; cbn [rbind] in *;
      [|destruct D1 as [-> ->]; auto].
    destruct (get ds "magnitude") as [m|e]; cbn [rbind] in *;
      [|destruct D1 as [-> ->]; auto].
    destruct (get ds "score") as [sc|e]; cbn [rbind] in *;
      [|destruct D2 as [-> ->]; auto].
    rewrite D1. cbn [andb].
    apply loop_decide, shape_sentence_decide.
  - destruct raw; cbn; auto.
  - apply loop_decide, shape_token_decide.
  - apply loop_decide, shape_category_decide.
Qed.

Lemma forallb_snoc {A} (f : A -> bool) l x :
  forallb f (l ++ [x]) = forallb f l && f x.
Proof. rewrite forallb_app. cbn. now rewrite andb_true_r. Qed.

Lemma existsb_snoc {A} (f : A -> bool) l x :
  existsb f (l ++ [x]) = existsb f l || f x.
Proof. rewrite existsb_app. cbn. now rewrite orb_false_r. Qed.

Lemma event_ok_not_malformed log :
  forallb event_ok log = true -> existsb malformed log = false.
Proof.
  induction log as [|[[m q] [v|r]] rest IH]; cbn; [reflexivity| |discriminate].
  intros H. apply andb_true_iff in H as [-> H]. cbn. now apply IH.
Qed.

Lemma event_ok_not_failed log :
  forallb event_ok log = true -> some_request_failed log = false.
Proof.
  unfold some_request_failed.
  induction log as [|[[m q] [v|r]] rest IH]; cbn; [reflexivity| |discriminate].
  intros H. apply andb_true_iff in H as [_ H]. now apply IH.
Qed.

Lemma lookup_missing p fields :
  existsb (fun k => String.eqb k p) (map fst fields) = false ->
  lookup p fields = undefined.
Proof.
  induction fields as [|[k v] rest IH]; cbn; [reflexivity|].
  destruct (String.eqb k p); cbn; [discriminate | exact IH].
Qed.

(** *** What a run issues and how it ends *)

Ltac run_case :=
  match goal with
  | |- context [connect client ?k ?w] =>
      let r := fresh "r" in let w' := fresh "w" in
      destruct (connect client k w) as [r w']; destruct r as [[]|?]
  | |- context [serve client ?m ?q ?w] =>
      let r := fresh "r" in let w' := fresh "w" in
      destruct (serve client m q w) as [r w']; destruct r
  | |- context [shape_of ?m ?v] =>
      let D := fresh "D" in
      pose proof (shape_of_decide m v) as D;
      destruct (shape_of m v); [|destruct D as [D ->]]
  end; cbn [outcome after issued app fst snd].

Ltac use_well_formed :=
  repeat match goal with
         | D : well_formed _ _ = _ |- _ => rewrite D; clear D
         end.

(** The requests of a run are those of the set flags, in the order of the
    source, up to the point the run ended at; each carries the document made
    of the text. *)
Lemma analyzeText_requests text fs fe fy fc w :
  exists rest,
    requested fs fe fy fc =
      map method_of (issued (analyzeText client text fs fe fy fc w)) ++ rest /\
    Forall (fun ev => request_of ev = make_request text)
           (issued (analyzeText client text fs fe fy fc w)) /\
    (forall res, outcome (analyzeText client text fs fe fy fc w) = Ok res -> rest = []).
Proof.
  run_open.
  destruct fs, fe, fy, fc; repeat run_case;
    eexists; (split; [cbn; reflexivity|]);
    (split; [repeat constructor|]); intros res H;
    first [discriminate H | reflexivity].
Qed.

(** How a run ends: it returns when the client could be made and every
    request it issued went well; otherwise it throws what making the client
    threw, or what the one request that did not go well raises, and that
    request is the last one issued. *)
Lemma analyzeText_diagnosis text fs fe fy fc w :
  match outcome (analyzeText client text fs fe fy fc w) with
  | Ok _ =>
      fst (connect client key w) = Ok tt /\
      forallb event_ok (issued (analyzeText client text fs fe fy fc w)) = true
  | Throw e =>
      (fst (connect client key w) = Throw e /\
       issued (analyzeText client text fs fe fy fc w) = []) \/
      (fst (connect client key w) = Ok tt /\
       exists log ev,
         issued (analyzeText client text fs fe fy fc w) = log ++ [ev] /\
         forallb event_ok log = true /\
         event_ok ev = false /\
         e = raised_by ev)
  end.
Proof.
  run_open.
  destruct fs, fe, fy, fc; repeat run_case;
    first
      [ split; [reflexivity|]; cbn [forallb event_ok]; use_well_formed; reflexivity
      | left; split; reflexivity
      | right; split; [reflexivity|];
        match goal with
        | |- exists log ev, ?l = _ /\ _ =>
            exists (removelast l), (last l (analyzeSentiment, null, Rejected null))
        end;
        cbn [removelast last app forallb event_ok raised_by];
        split; [reflexivity|]; split; [use_well_formed; reflexivity|];
        split; [first [reflexivity | assumption] | reflexivity] ].
Qed.

(** Against a collaborator that is well behaved, a run returns. *)
Lemma analyzeText_well_behaved text fs fe fy fc w :
  well_behaved client ->
  exists res, outcome (analyzeText client text fs fe fy fc w) = Ok res.
Proof.
  intros [Hconnect Hserve]. run_open.
  specialize (Hconnect key w).
  destruct (connect client key w) as [r w0]; cbn in Hconnect; subst r.
  cbn [outcome after issued app fst snd].
  destruct fs, fe, fy, fc;
    repeat (match goal with
            | |- context [serve client ?m ?q ?w] =>
                let v := fresh "v" in let Hv := fresh "Hv" in
                let Hwf := fresh "Hwf" in let D := fresh "D" in
                destruct (Hserve m q w) as (v & Hv & Hwf);
                destruct (serve client m q w) as [? ?]; cbn in Hv; subst;
                pose proof (shape_of_decide m v) as D;
                destruct (shape_of m v);
                [clear D | destruct D as [D _]; congruence]
            end; cbn [outcome after issued app fst snd]);
    eexists; reflexivity.
Qed.

Lemma requested_flag method fs fe fy fc :
  In method (requested fs fe fy fc) -> flag_of method fs fe fy fc = true.
Proof.
  destruct fs, fe, fy, fc, method; cbn; intros H; try reflexivity;
    repeat (destruct H as [H|H]; try discriminate H); contradiction.
Qed.

Lemma requested_NoDup fs fe fy fc : NoDup (requested fs fe fy fc).
Proof.
  destruct fs, fe, fy, fc; cbn;
    repeat (constructor; [cbn; intros H;
                          repeat (destruct H as [H|H]; try discriminate H);
                          contradiction|]);
    constructor.
Qed.

Lemma response_to_not_requested method log :
  ~ In method (map method_of log) -> response_to method log = None.
Proof.
  induction log as [|[[m q] r] rest IH]; cbn; [reflexivity|]. intros H.
  destruct (Method_eqb m method) eqn:E.
  - exfalso. apply H. left. unfold method_of. cbn.
    destruct m, method; try discriminate E; reflexivity.
  - apply IH. intros Hin. apply H. now right.
Qed.

(** *** Properties of the requests *)

(** X1: the requests of a call are those of the set flags, in the order
    sentiment, entities, syntax, classification of the source, up to the
    point where the call ended; each of them carries the document made of the
    unchanged text with type PLAIN_TEXT. *)
Theorem requests_follow_flags text fs fe fy fc w :
  exists rest,
    requested fs fe fy fc =
      map method_of (issued (analyzeTextWrapper client text fs fe fy fc w)) ++ rest /\
    Forall (fun ev =>
              request_of ev =
              JObj [("document",
                     JObj [("content", JStr text); ("type", JStr "PLAIN_TEXT")])])
           (issued (analyzeTextWrapper client text fs fe fy fc w)).
Proof.
  rewrite analyzeTextWrapper_issued.
  destruct (analyzeText_requests text fs fe fy fc w) as (rest & Hreq & Hall & _).
  exists rest. split; assumption.
Qed.

(** X2: no request is issued for a kind whose flag is false. *)
Theorem no_request_for_unset_flag text fs fe fy fc w method :
  flag_of method fs fe fy fc = false ->
  response_to method (issued (analyzeTextWrapper client text fs fe fy fc w)) = None.
Proof.
  rewrite analyzeTextWrapper_issued. intros Hflag.
  destruct (analyzeText_requests text fs fe fy fc w) as (rest & Hreq & _ & _).
  apply response_to_not_requested. intros Hin.
  assert (In method (requested fs fe fy fc)) as Hr
    by (rewrite Hreq; apply in_or_app; now left).
  apply requested_flag in Hr. congruence.
Qed.

(** X3: a call that returns has issued exactly one request per set flag, in
    the order of the source, and every one of them resolved. *)
Theorem successful_call_requests text fs fe fy fc w res :
  outcome (analyzeText client text fs fe fy fc w) = Ok res ->
  map method_of (issued (analyzeText client text fs fe fy fc w)) = requested fs fe fy fc /\
  some_request_failed (issued (analyzeText client text fs fe fy fc w)) = false.
Proof.
  intros H.
  destruct (analyzeText_requests text fs fe fy fc w) as (rest & Hreq & _ & Hrest).
  rewrite (Hrest _ H), app_nil_r in Hreq. split; [now symmetry|].
  pose proof (analyzeText_diagnosis text fs fe fy fc w) as D. rewrite H in D.
  apply event_ok_not_failed, D.
Qed.

(** X4: a call never issues two requests to the same method: nothing is
    retried. *)
Theorem at_most_one_request_per_method text fs fe fy fc w :
  NoDup (map method_of (issued (analyzeTextWrapper client text fs fe fy fc w))).
Proof.
  rewrite analyzeTextWrapper_issued.
  destruct (analyzeText_requests text fs fe fy fc w) as (rest & Hreq & _ & _).
  pose proof (requested_NoDup fs fe fy fc) as Hnd. rewrite Hreq in Hnd.
  eapply NoDup_app_remove_r; eassumption.
Qed.

(** X5: the request that is rejected is the last request of the call: the
    requests before it all resolved with well-formed responses, and the
    kinds that come after it in the source are not requested any more. *)
Theorem first_failure_ends_requests text fs fe fy fc w :
  some_request_failed (issued (analyzeTextWrapper client text fs fe fy fc w)) = true ->
  exists log method request reason,
    issued (analyzeTextWrapper client text fs fe fy fc w) =
      log ++ [(method, request, Rejected reason)] /\
    forallb event_ok log = true.
Proof.
  rewrite analyzeTextWrapper_issued. intros Hfailed.
  pose proof (analyzeText_diagnosis text fs fe fy fc w) as D.
  destruct (outcome (analyzeText client text fs fe fy fc w)) as [res|e].
  - destruct D as [_ D]. apply event_ok_not_failed in D. congruence.
  - destruct D as [[_ Hnone] | (_ & log & ev & Hlog & Hok & Hev & _)].
    + rewrite Hnone in Hfailed. discriminate Hfailed.
    + rewrite Hlog in Hfailed |- *. unfold some_request_failed in Hfailed.
      rewrite existsb_snoc in Hfailed.
      fold (some_request_failed log) in Hfailed.
      rewrite (event_ok_not_failed _ Hok) in Hfailed. cbn in Hfailed.
      destruct ev as [[m q] [v|reason]]; [discriminate Hfailed|].
      exists log, m, q, reason. split; [reflexivity | assumption].
Qed.

(** *** How a call of [analyzeText] ends *)

(** X6: [analyzeText] returns if and only if the client could be made and
    every request it issued resolved with a well-formed response. *)
Theorem analyzeText_returns_iff text fs fe fy fc w :
  (exists res, outcome (analyzeText client text fs fe fy fc w) = Ok res) <->
  fst (connect client key w) = Ok tt /\
  forallb event_ok (issued (analyzeText client text fs fe fy fc w)) = true.
Proof.
  pose proof (analyzeText_diagnosis text fs fe fy fc w) as D.
  destruct (outcome (analyzeText client text fs fe fy fc w)) as [res|e].
  - split; [intros _; exact D | intros _; eauto].
  - split; [intros [res H]; discriminate H|].
    intros [Hconnect Hall]. exfalso.
    destruct D as [[Hthrow _] | (_ & log & ev & Hlog & _ & Hev & _)].
    + congruence.
    + rewrite Hlog, forallb_snoc, Hev, andb_false_r in Hall. discriminate Hall.
Qed.

(** X7: what [analyzeText] throws is what making the client threw, with no
    request issued, or the rejection reason of its last request, or a
    TypeError when its last request resolved with a response that is not
    well formed; every earlier request went well. *)
Theorem analyzeText_throws text fs fe fy fc w e :
  outcome (analyzeText client text fs fe fy fc w) = Throw e ->
  (fst (connect client key w) = Throw e /\
   issued (analyzeText client text fs fe fy fc w) = []) \/
  (exists log method request reason,
     issued (analyzeText client text fs fe fy fc w) =
       log ++ [(method, request, Rejected reason)] /\
     forallb event_ok log = true /\
     e = Reason reason) \/
  (exists log method request v,
     issued (analyzeText client text fs fe fy fc w) =
       log ++ [(method, request, Resolved v)] /\
     forallb event_ok log = true /\
     well_formed method v = false /\
     e = TypeError).
Proof.
  intros H.
  pose proof (analyzeText_diagnosis text fs fe fy fc w) as D. rewrite H in D.
  destruct D as [D | (_ & log & [[m q] [v|reason]] & Hlog & Hok & Hev & ->)].
  - now left.
  - right. right. exists log, m, q, v. repeat split; assumption.
  - right. left. exists log, m, q, reason. repeat split; assumption.
Qed.

(** X8: when the client cannot be made, no request is issued, [analyzeText]
    throws what was thrown, and the wrapper returns the fallback outcome. *)
Theorem client_failure text fs fe fy fc w e :
  fst (connect client key w) = Throw e ->
  outcome (analyzeText client text fs fe fy fc w) = Throw e /\
  issued (analyzeTextWrapper client text fs fe fy fc w) = [] /\
  outcome (analyzeTextWrapper client text fs fe fy fc w) =
    Ok (fallback_outcome fs fe fy fc).
Proof.
  rewrite analyzeTextWrapper_issued. intros Hconnect.
  pose proof (analyzeText_diagnosis text fs fe fy fc w) as D.
  destruct (outcome (analyzeText client text fs fe fy fc w)) as [res|e'] eqn:H.
  - destruct D as [D _]. congruence.
  - destruct D as [[Hthrow Hnone] | (Hok & _)]; [|congruence].
    assert (e' = e) as -> by congruence.
    repeat split; [assumption|]. eapply analyzeTextWrapper_fallback; eassumption.
Qed.

(** X9: a response that is not well formed makes [analyzeText] throw a
    TypeError although no request was rejected, and the wrapper returns the
    fallback outcome. *)
Theorem malformed_response_falls_back text fs fe fy fc w :
  existsb malformed (issued (analyzeTextWrapper client text fs fe fy fc w)) = true ->
  outcome (analyzeText client text fs fe fy fc w) = Throw TypeError /\
  some_request_failed (issued (analyzeTextWrapper client text fs fe fy fc w)) = false /\
  outcome (analyzeTextWrapper client text fs fe fy fc w) =
    Ok (fallback_outcome fs fe fy fc).
Proof.
  rewrite analyzeTextWrapper_issued. intros Hbad.
  pose proof (analyzeText_diagnosis text fs fe fy fc w) as D.
  destruct (outcome (analyzeText client text fs fe fy fc w)) as [res|e] eqn:H.
  - destruct D as [_ D]. apply event_ok_not_malformed in D. congruence.
  - destruct D as [[_ Hnone] | (_ & log & ev & Hlog & Hok & Hev & ->)].
    + rewrite Hnone in Hbad. discriminate Hbad.
    + rewrite Hlog in Hbad |- *. rewrite existsb_snoc in Hbad.
      rewrite (event_ok_not_malformed _ Hok) in Hbad. cbn in Hbad.
      destruct ev as [[m q] [v|reason]]; [|discriminate Hbad].
      split; [reflexivity|]. split.
      * unfold some_request_failed. rewrite existsb_snoc.
        fold (some_request_failed log).
        now rewrite (event_ok_not_failed _ Hok).
      * eapply analyzeTextWrapper_fallback; eassumption.
Qed.

(** X10: against a collaborator that connects and answers every request
    with a well-formed response, [analyzeText] returns whatever the text and
    the flags, one request per set flag is issued, and the wrapper returns
    the same outcome. *)
Theorem well_behaved_collaborator_succeeds text fs fe fy fc w :
  well_behaved client ->
  exists res,
    outcome (analyzeText client text fs fe fy fc w) = Ok res /\
    outcome (analyzeTextWrapper client text fs fe fy fc w) = Ok res /\
    map method_of (issued (analyzeTextWrapper client text fs fe fy fc w)) =
      requested fs fe fy fc.
Proof.
  intros Hgood.
  destruct (analyzeText_well_behaved text fs fe fy fc w Hgood) as [res H].
  exists res. split; [assumption|].
  split; [now apply analyzeTextWrapper_success|].
  rewrite analyzeTextWrapper_issued.
  destruct (analyzeText_requests text fs fe fy fc w) as (rest & Hreq & _ & Hrest).
  rewrite (Hrest _ H), app_nil_r in Hreq. now symmetry.
Qed.

(** *** The wrapper and the slots *)

(** X11: with every flag false the wrapper issues no request and returns
    four [null]s, whatever the collaborator does, also when the client cannot
    be made. *)
Theorem nothing_requested text w :
  issued (analyzeTextWrapper client text false false false false w) = [] /\
  outcome (analyzeTextWrapper client text false false false false w) =
    Ok (JArr [null; null; null; null]).
Proof.
  split.
  - rewrite analyzeTextWrapper_issued.
    destruct (analyzeText_requests text false false false false w) as (rest & Hreq & _ & _).
    cbn in Hreq.
    destruct (issued (analyzeText client text false false false false w)); 
      [reflexivity | discriminate Hreq].
  - destruct (outcome (analyzeText client text false false false false w)) as [res|e] eqn:H.
    + destruct (analyzeText_ok _ _ _ _ _ _ _ H)
        as (s & e & y & k & -> & [-> _] & [-> _] & [-> _] & [-> _] & _).
      now apply analyzeTextWrapper_success.
    + eapply analyzeTextWrapper_fallback; eassumption.
Qed.

(** X12: the wrapper issues the requests of [analyzeText] and leaves the
    collaborator in the state [analyzeText] left it in: it adds no request of
    its own and does not try again after a failure; when [analyzeText]
    returns, the two runs are the same. *)
Theorem wrapper_adds_nothing text fs fe fy fc w :
  issued (analyzeTextWrapper client text fs fe fy fc w) =
    issued (analyzeText client text fs fe fy fc w) /\
  after (analyzeTextWrapper client text fs fe fy fc w) =
    after (analyzeText client text fs fe fy fc w) /\
  (forall res,
     outcome (analyzeText client text fs fe fy fc w) = Ok res ->
     analyzeTextWrapper client text fs fe fy fc w =
     analyzeText client text fs fe fy fc w).
Proof.
  split; [apply analyzeTextWrapper_issued|].
  split; [apply analyzeTextWrapper_after|].
  intros res. rewrite analyzeTextWrapper_run.
  destruct (analyzeText client text fs fe fy fc w) as [[r|e] w1 log]; cbn;
    [reflexivity | discriminate].
Qed.

(** X13: in a call that succeeds with the classification flag set, the
    classification slot holds one record per category of the response, in
    the order of the response, each with exactly the fields name and
    confidence of the category. *)
Theorem classification_shape text fs fe fy w res :
  outcome (analyzeText client text fs fe fy true w) = Ok res ->
  exists raw categories recs,
    payload classifyText (issued (analyzeText client text fs fe fy true w)) = Some raw /\
    get_items raw "categories" = Ok categories /\
    index res 3 = Ok (JArr recs) /\
    Forall2 category_record categories recs /\
    Forall (fun rec => keys rec = ["name"; "confidence"]) recs.
Proof.
  intros H.
  destruct (classify_slot _ _ _ _ _ _ H) as (raw & items & recs & Hp & Hit & Hall & Hres).
  exists raw, items, recs. repeat split; try assumption.
  eapply Forall2_right; [|exact Hall].
  intros x y (n & c & _ & _ & ->). reflexivity.
Qed.

(** X14: when the entity response has no [entities] property, a call that
    succeeds leaves [undefined] in the entities slot: neither [null] nor an
    array. *)
Theorem missing_entities_key text fs fy fc w res raw :
  outcome (analyzeText client text fs true fy fc w) = Ok res ->
  payload analyzeEntities (issued (analyzeText client text fs true fy fc w)) = Some raw ->
  has_key "entities" raw = false ->
  index res 1 = Ok undefined.
Proof.
  intros H Hp Hkey.
  destruct (entities_slot _ _ _ _ _ _ H) as (raw' & slot & Hp' & Hget & Hres).
  assert (raw' = raw) as -> by congruence.
  rewrite Hres. f_equal.
  destruct raw; cbn in Hget; try discriminate Hget; try congruence.
  rewrite (lookup_missing _ _ Hkey) in Hget. congruence.
Qed.

(** X15: the outcome of the wrapper is all or nothing: it is the outcome of
    [analyzeText] when that returns, and the fallback outcome whenever
    [analyzeText] throws, whatever the cause. *)
Theorem all_or_nothing text fs fe fy fc w :
  (exists res,
     outcome (analyzeText client text fs fe fy fc w) = Ok res /\
     outcome (analyzeTextWrapper client text fs fe fy fc w) = Ok res) \/
  (exists e,
     outcome (analyzeText client text fs fe fy fc w) = Throw e /\
     outcome (analyzeTextWrapper client text fs fe fy fc w) =
       Ok (fallback_outcome fs fe fy fc)).
Proof.
  destruct (outcome (analyzeText client text fs fe fy fc w)) as [res|e] eqn:H.
  - left. exists res. split; [reflexivity | now apply analyzeTextWrapper_success].
  - right. exists e. split; [reflexivity|].
    eapply analyzeTextWrapper_fallback; eassumption.
Qed.

End Runs.

(** ** The module run against the mock collaborators *)

(** Scenario A of the specification. *)
Example scenario_A_run :
  outcome (analyzeTextWrapper Mock.healthy "I love this." true false false false 0) =
    Ok Mock.scenario_A.
Proof. reflexivity. Qed.

(** Scenario B: the same call against a collaborator that fails. *)
Example scenario_B_run :
  outcome (analyzeTextWrapper Mock.unreachable "I love this." true false false false 0) =
    Ok (JArr [JArr [JObj [("magnitude", JNum 0); ("score", JNum 0)];
                    JObj [("text", JStr "dummy_text");
                          ("magnitude", JNum 0); ("score", JNum 0)]];
              null; null; null]).
Proof. reflexivity. Qed.

(** Scenario C: the empty text, every flag set. *)
Example scenario_C_run :
  outcome (analyzeTextWrapper Mock.silent "" true true true true 0) = Ok Mock.scenario_C.
Proof. reflexivity. Qed.

Example healthy_full_run :
  analyzeText Mock.healthy "I love this." true true true true 0 =
    mkRun (Ok Mock.full_outcome) 4
      [(analyzeSentiment, make_request "I love this.", Resolved Mock.sentiment_response);
       (analyzeEntities, make_request "I love this.", Resolved Mock.entities_response);
       (analyzeSyntax, make_request "I love this.", Resolved Mock.syntax_response);
       (classifyText, make_request "I love this.", Resolved Mock.classify_response)].
Proof. reflexivity. Qed.

(** No request goes out for a flag that is off, and none after a failure. *)
Example syntax_down_requests :
  map (fun ev => fst (fst ev))
      (issued (analyzeTextWrapper Mock.syntax_down "I love this." false true true true 0)) =
    [analyzeEntities; analyzeSyntax].
Proof. reflexivity. Qed.

Lemma healthy_deterministic : deterministic Mock.healthy.
Proof. split; intros; reflexivity. Qed.

(** Against a collaborator that keeps state, two identical calls may differ:
    the determinism of the collaborator is needed for P4. *)
Example quota_of_one_differs :
  let first := analyzeTextWrapper Mock.quota_of_one "I love this." true false false false 0 in
  let second :=
    analyzeTextWrapper Mock.quota_of_one "I love this." true false false false (after first) in
  outcome first = Ok Mock.scenario_A /\
  outcome second = Ok (fallback_outcome true false false false) /\
  outcome first <> outcome second.
Proof. repeat split. discriminate. Qed.

(** ** Instances and counterexamples *)

Lemma fallback_is_total_witness :
  some_request_failed
    (issued (analyzeTextWrapper Mock.syntax_down "I love this." true true true true 0)) = true /\
  outcome (analyzeTextWrapper Mock.syntax_down "I love this." true true true true 0) =
    Ok (fallback_outcome true true true true).
Proof.
  split; [reflexivity|].
  apply (fallback_is_total Mock.syntax_down "I love this." true true true true 0).
  reflexivity.
Defined.

(** Without the contract the entities slot is not gated: a response that
    carries [null] where the contract has a list is passed through. *)
Example null_entities_pass_through :
  outcome (analyzeTextWrapper Mock.null_entities "I love this." false true false false 0) =
    Ok (JArr [null; null; null; null]) /\
  ~ entity_list_contract
      (issued (analyzeTextWrapper Mock.null_entities "I love this." false true false false 0)).
Proof.
  split; [reflexivity|].
  intros H. destruct (H (JObj [("entities", null)]) eq_refl) as (entities & Hget).
  discriminate Hget.
Qed.

Lemma flag_gating_both_paths_witness :
  entity_list_contract
    (issued (analyzeTextWrapper Mock.syntax_down "I love this." true true true false 0)) /\
  exists s e y k,
    outcome (analyzeTextWrapper Mock.syntax_down "I love this." true true true false 0) =
      Ok (JArr [s; e; y; k]) /\
    (forall res,
       outcome (analyzeText Mock.syntax_down "I love this." true true true false 0) = Ok res ->
       res = JArr [s; e; y; k]) /\
    flag_gated true s /\
    flag_gated true e /\
    flag_gated true y /\
    flag_gated false k.
Proof.
  split.
  - intros raw H. vm_compute in H. injection H as <-. eexists. reflexivity.
  - apply (flag_gating_both_paths Mock.syntax_down "I love this." true true true false 0).
    intros raw H. vm_compute in H. injection H as <-. eexists. reflexivity.
Defined.

(** C2: the operation a caller of the module gets is the exported
    [analyzeText], and it does raise: with the sentiment flag set and a
    collaborator that rejects the request, the call ends in the rejection
    reason instead of an outcome.  The wrapper defined beside it, which the
    module does not export, returns the fallback outcome on the same input. *)
Theorem exported_analyze_raises :
  outcome (module_exports Mock.unreachable "I love this." true false false false 0) =
    Throw (Reason (JStr "14 UNAVAILABLE")) /\
  issued (module_exports Mock.unreachable "I love this." true false false false 0) =
    [(analyzeSentiment, make_request "I love this.", Rejected (JStr "14 UNAVAILABLE"))] /\
  outcome (analyzeTextWrapper Mock.unreachable "I love this." true false false false 0) =
    Ok (fallback_outcome true false false false).
Proof. repeat split. Qed.

Lemma sentiment_shape_witness :
  outcome (analyzeText Mock.healthy "I love this." true true true true 0) =
    Ok Mock.full_outcome /\
  exists raw sentences head recs,
    payload analyzeSentiment
      (issued (analyzeText Mock.healthy "I love this." true true true true 0)) = Some raw /\
    get_items raw "sentences" = Ok sentences /\
    index Mock.full_outcome 0 = Ok (JArr (head :: recs)) /\
    document_record raw head /\
    keys head = ["magnitude"; "score"] /\
    Forall2 sentence_record sentences recs /\
    Forall (fun rec => keys rec = ["text"; "magnitude"; "score"]) recs /\
    1 <= List.length (head :: recs) /\
    outcome (analyzeTextWrapper Mock.healthy "I love this." true true true true 0) =
      Ok Mock.full_outcome.
Proof.
  split; [reflexivity|].
  apply (sentiment_shape Mock.healthy "I love this." true true true 0 Mock.full_outcome).
  reflexivity.
Defined.

(** C5 as the specification states it fails: the entity returned by the
    collaborator reaches the entities slot with all of its fields, not as its
    projection onto name, type and salience. *)
Lemma entity_projection_counterexample :
  outcome (analyzeTextWrapper Mock.healthy "I love this." false true false false 0) =
    Ok (JArr [null; JArr [Mock.entity]; null; null]) /\
  payload analyzeEntities
    (issued (analyzeTextWrapper Mock.healthy "I love this." false true false false 0)) =
    Some (JObj [("entities", JArr [Mock.entity]); ("language", JStr "en")]) /\
  keys Mock.entity = ["mentions"; "metadata"; "name"; "type"; "salience"] /\
  ~ entities_projected [Mock.entity] (JArr [Mock.entity]).
Proof.
  split; [reflexivity|]. split; [reflexivity|]. split; [reflexivity|].
  intros (recs & Heq & Hall). injection Heq as <-.
  inversion Hall as [|x r xs rs Hproj Hrest]; subst.
  vm_compute in Hproj. discriminate Hproj.
Qed.

Lemma entities_passed_through_witness :
  outcome (analyzeText Mock.healthy "I love this." true true true true 0) =
    Ok Mock.full_outcome /\
  exists raw slot,
    payload analyzeEntities
      (issued (analyzeText Mock.healthy "I love this." true true true true 0)) = Some raw /\
    get raw "entities" = Ok slot /\
    index Mock.full_outcome 1 = Ok slot /\
    outcome (analyzeTextWrapper Mock.healthy "I love this." true true true true 0) =
      Ok Mock.full_outcome.
Proof.
  split; [reflexivity|].
  apply (entities_passed_through Mock.healthy "I love this." true true true 0 Mock.full_outcome).
  reflexivity.
Defined.

Lemma syntax_shape_witness :
  outcome (analyzeText Mock.healthy "I love this." true true true true 0) =
    Ok Mock.full_outcome /\
  exists raw tokens recs,
    payload analyzeSyntax
      (issued (analyzeText Mock.healthy "I love this." true true true true 0)) = Some raw /\
    get_items raw "tokens" = Ok tokens /\
    index Mock.full_outcome 2 = Ok (JArr recs) /\
    Forall2 token_record tokens recs /\
    Forall (fun rec => keys rec = ["partOfSpeech"; "word"]) recs /\
    outcome (analyzeTextWrapper Mock.healthy "I love this." true true true true 0) =
      Ok Mock.full_outcome.
Proof.
  split; [reflexivity|].
  apply (syntax_shape Mock.healthy "I love this." true true true 0 Mock.full_outcome).
  reflexivity.
Defined.

Lemma empty_classification_is_valid_witness :
  payload classifyText
    (issued (analyzeTextWrapper Mock.healthy "I love this." true true true true 0)) =
    Some (JObj [("categories", JArr [])]) /\
  get_items (JObj [("categories", JArr [])]) "categories" = Ok [] /\
  exists res,
    outcome (analyzeText Mock.healthy "I love this." true true true true 0) = Ok res /\
    outcome (analyzeTextWrapper Mock.healthy "I love this." true true true true 0) = Ok res /\
    index res 3 = Ok (JArr []) /\
    res <> fallback_outcome true true true true.
Proof.
  split; [reflexivity|]. split; [reflexivity|].
  apply (empty_classification_is_valid Mock.healthy "I love this." true true true 0
           (JObj [("categories", JArr [])])); reflexivity.
Defined.

Lemma analyze_deterministic_witness :
  deterministic Mock.healthy /\
  (let first := analyzeTextWrapper Mock.healthy "I love this." true true true true 0 in
   let second := analyzeTextWrapper Mock.healthy "I love this." true true true true (after first) in
   outcome second = outcome first /\ issued second = issued first) /\
  (let first := analyzeText Mock.healthy "I love this." true true true true 0 in
   let second := analyzeText Mock.healthy "I love this." true true true true (after first) in
   outcome second = outcome first /\ issued second = issued first) /\
  (forall w',
     outcome (analyzeTextWrapper Mock.healthy "I love this." true true true true w') =
     outcome (analyzeTextWrapper Mock.healthy "I love this." true true true true 0)).
Proof.
  split; [split; intros; reflexivity|].
  apply (analyze_deterministic Mock.healthy "I love this." true true true true 0).
  split; intros; reflexivity.
Defined.

Lemma exported_function_propagates_witness :
  some_request_failed
    (issued (module_exports Mock.syntax_down "I love this." true true true true 0)) = true /\
  exists method request reason,
    In (method, request, Rejected reason)
       (issued (module_exports Mock.syntax_down "I love this." true true true true 0)) /\
    outcome (module_exports Mock.syntax_down "I love this." true true true true 0) =
      Throw (Reason reason) /\
    outcome (analyzeTextWrapper Mock.syntax_down "I love this." true true true true 0) =
      Ok (fallback_outcome true true true true).
Proof.
  split; [reflexivity|].
  apply (exported_function_propagates Mock.syntax_down "I love this." true true true true 0).
  reflexivity.
Defined.

Lemma slot_lengths_witness :
  outcome (analyzeText Mock.healthy "I love this." true true true true 0) =
    Ok Mock.full_outcome /\
  (true = true ->
   exists raw sentences slot,
     payload analyzeSentiment
       (issued (analyzeText Mock.healthy "I love this." true true true true 0)) = Some raw /\
     get_items raw "sentences" = Ok sentences /\
     index Mock.full_outcome 0 = Ok (JArr slot) /\
     List.length slot = 1 + List.length sentences) /\
  (true = true ->
   exists raw tokens slot,
     payload analyzeSyntax
       (issued (analyzeText Mock.healthy "I love this." true true true true 0)) = Some raw /\
     get_items raw "tokens" = Ok tokens /\
     index Mock.full_outcome 2 = Ok (JArr slot) /\
     List.length slot = List.length tokens) /\
  (true = true ->
   exists raw categories slot,
     payload classifyText
       (issued (analyzeText Mock.healthy "I love this." true true true true 0)) = Some raw /\
     get_items raw "categories" = Ok categories /\
     index Mock.full_outcome 3 = Ok (JArr slot) /\
     List.length slot = List.length categories).
Proof.
  split; [reflexivity|].
  apply (slot_lengths Mock.healthy "I love this." true true true true 0 Mock.full_outcome).
  reflexivity.
Defined.

(** ** Instances of the further properties *)

Lemma no_request_for_unset_flag_witness :
  flag_of analyzeEntities true false true false = false /\
  response_to analyzeEntities
    (issued (analyzeTextWrapper Mock.healthy "I love this." true false true false 0)) = None.
Proof.
  split; [reflexivity|].
  apply (no_request_for_unset_flag Mock.healthy "I love this." true false true false 0
           analyzeEntities).
  reflexivity.
Defined.

Lemma successful_call_requests_witness :
  outcome (analyzeText Mock.healthy "I love this." true true true true 0) =
    Ok Mock.full_outcome /\
  map method_of (issued (analyzeText Mock.healthy "I love this." true true true true 0)) =
    requested true true true true /\
  some_request_failed
    (issued (analyzeText Mock.healthy "I love this." true true true true 0)) = false.
Proof.
  split; [reflexivity|].
  apply (successful_call_requests Mock.healthy "I love this." true true true true 0
           Mock.full_outcome).
  reflexivity.
Defined.

Lemma first_failure_ends_requests_witness :
  some_request_failed
    (issued (analyzeTextWrapper Mock.syntax_down "I love this." true true true true 0)) = true /\
  exists log method request reason,
    issued (analyzeTextWrapper Mock.syntax_down "I love this." true true true true 0) =
      log ++ [(method, request, Rejected reason)] /\
    forallb event_ok log = true.
Proof.
  split; [reflexivity|].
  apply (first_failure_ends_requests Mock.syntax_down "I love this." true true true true 0).
  reflexivity.
Defined.

Lemma analyzeText_throws_witness :
  outcome (analyzeText Mock.syntax_down "I love this." true true true true 0) =
    Throw (Reason (JStr "14 UNAVAILABLE")) /\
  ((fst (connect Mock.syntax_down key 0) = Throw (Reason (JStr "14 UNAVAILABLE")) /\
    issued (analyzeText Mock.syntax_down "I love this." true true true true 0) = []) \/
   (exists log method request reason,
      issued (analyzeText Mock.syntax_down "I love this." true true true true 0) =
        log ++ [(method, request, Rejected reason)] /\
      forallb event_ok log = true /\
      Reason (JStr "14 UNAVAILABLE") = Reason reason) \/
   (exists log method request v,
      issued (analyzeText Mock.syntax_down "I love this." true true true true 0) =
        log ++ [(method, request, Resolved v)] /\
      forallb event_ok log = true /\
      well_formed method v = false /\
      Reason (JStr "14 UNAVAILABLE") = TypeError)).
Proof.
  split; [reflexivity|].
  apply (analyzeText_throws Mock.syntax_down "I love this." true true true true 0).
  reflexivity.
Defined.

Lemma client_failure_witness :
  fst (connect Faulty.no_client key 0) = Throw (Reason (JStr "Cannot find module")) /\
  outcome (analyzeText Faulty.no_client "I love this." true true false false 0) =
    Throw (Reason (JStr "Cannot find module")) /\
  issued (analyzeTextWrapper Faulty.no_client "I love this." true true false false 0) = [] /\
  outcome (analyzeTextWrapper Faulty.no_client "I love this." true true false false 0) =
    Ok (fallback_outcome true true false false).
Proof.
  split; [reflexivity|].
  apply (client_failure Faulty.no_client "I love this." true true false false 0).
  reflexivity.
Defined.

Lemma malformed_response_falls_back_witness :
  existsb malformed
    (issued (analyzeTextWrapper Faulty.textless_sentence "I love this." true true true true 0)) =
    true /\
  outcome (analyzeText Faulty.textless_sentence "I love this." true true true true 0) =
    Throw TypeError /\
  some_request_failed
    (issued (analyzeTextWrapper Faulty.textless_sentence "I love this." true true true true 0)) =
    false /\
  outcome (analyzeTextWrapper Faulty.textless_sentence "I love this." true true true true 0) =
    Ok (fallback_outcome true true true true).
Proof.
  split; [reflexivity|].
  apply (malformed_response_falls_back Faulty.textless_sentence "I love this."
           true true true true 0).
  reflexivity.
Defined.

Lemma well_behaved_collaborator_succeeds_witness :
  well_behaved Mock.healthy /\
  exists res,
    outcome (analyzeText Mock.healthy "I love this." true false true true 0) = Ok res /\
    outcome (analyzeTextWrapper Mock.healthy "I love this." true false true true 0) = Ok res /\
    map method_of
      (issued (analyzeTextWrapper Mock.healthy "I love this." true false true true 0)) =
      requested true false true true.
Proof.
  split.
  - split; [intros; reflexivity|].
    intros method request w. destruct method; eexists; split; reflexivity.
  - apply (well_behaved_collaborator_succeeds Mock.healthy "I love this."
             true false true true 0).
    split; [intros; reflexivity|].
    intros method request w. destruct method; eexists; split; reflexivity.
Defined.

Lemma classification_shape_witness :
  outcome (analyzeText Faulty.two_categories "I love this." false false false true 0) =
    Ok Faulty.two_categories_outcome /\
  exists raw categories recs,
    payload classifyText
      (issued (analyzeText Faulty.two_categories "I love this." false false false true 0)) =
      Some raw /\
    get_items raw "categories" = Ok categories /\
    index Faulty.two_categories_outcome 3 = Ok (JArr recs) /\
    Forall2 category_record categories recs /\
    Forall (fun rec => keys rec = ["name"; "confidence"]) recs.
Proof.
  split; [reflexivity|].
  apply (classification_shape Faulty.two_categories "I love this." false false false 0
           Faulty.two_categories_outcome).
  reflexivity.
Defined.

Lemma missing_entities_key_witness :
  outcome (analyzeText Faulty.no_entities_key "I love this." false true false false 0) =
    Ok (JArr [null; undefined; null; null]) /\
  payload analyzeEntities
    (issued (analyzeText Faulty.no_entities_key "I love this." false true false false 0)) =
    Some (JObj [("language", JStr "en")]) /\
  has_key "entities" (JObj [("language", JStr "en")]) = false /\
  index (JArr [null; undefined; null; null]) 1 = Ok undefined.
Proof.
  split; [reflexivity|]. split; [reflexivity|]. split; [reflexivity|].
  apply (missing_entities_key Faulty.no_entities_key "I love this." false false false 0
           (JArr [null; undefined; null; null]) (JObj [("language", JStr "en")]));
    reflexivity.
Defined.
